(** * Hyperliquid Agent Deployer: the deployment path of [server.js]

    A shallow embedding of [generateAgentCode], [ensureLogGroup] and
    [deployToFargate] (with its nested [createNewService]; the statement of
    [deployToFargate] that reconciles the service is named
    [reconcileService]) and the properties of the reconciliation they
    implement.

    Conventions of the embedding:
    - a JS string is a [string], read as its UTF-8 bytes;
    - a thrown value is a [JsError] (an [Error] object: [name], [message]);
    - an [async] function is a computation in the monad [M]: it threads the
      [History] of observable effects (SDK commands sent, timers, console
      output, HTTP posts) and either fulfils with a value or rejects with a
      [JsError];
    - the outside world (AWS, the AI engine) is an oracle that answers each
      request from the history so far: every theorem quantifies over it. *)

From Stdlib Require Import String Ascii List ZArith Bool Lia.
Import ListNotations.
Local Open Scope string_scope.

(* ================================================================== *)
(** ** JavaScript strings *)
(* ================================================================== *)

Module Js.

(** [s.includes(sub)] *)
Fixpoint includes (s sub : string) : bool :=
  if String.prefix sub s then true
  else match s with
       | EmptyString => false
       | String _ s' => includes s' sub
       end.

(** The declarative reading of [includes]: [sub] occurs somewhere in [s]. *)
Definition Contains (s sub : string) : Prop :=
  exists pre post, s = pre ++ sub ++ post.

(** A value of a JSON request body, or [undefined]. *)
Inductive value : Type :=
| undefined
| null
| boolean (b : bool)
| number (n : Z)
| text (s : string).

(** [`${v}`] for a value that may be [undefined]. *)
Definition template (v : option string) : string :=
  match v with
  | Some s => s
  | None => "undefined"
  end.

(** [!v] for a value that is a string or [undefined]. *)
Definition falsy (v : option string) : bool :=
  match v with
  | Some s => String.eqb s ""
  | None => true
  end.

(** [v || d] for a value that is a string or [undefined]. *)
Definition or_else (v : option string) (d : string) : string :=
  match v with
  | Some s => if String.eqb s "" then d else s
  | None => d
  end.

(** [v || null]: the empty string and [undefined] both become [null]. *)
Definition or_null (v : option string) : option string :=
  if falsy v then None else v.

(** [s.split(sep)] for a one-character separator: [split_go] carries the
    piece being read. *)
Fixpoint split_go (sep : ascii) (acc : string) (s : string) : list string :=
  match s with
  | EmptyString => [acc]
  | String c s' =>
      if Ascii.eqb c sep then acc :: split_go sep "" s'
      else split_go sep (acc ++ String c "") s'
  end.

Definition split (sep : ascii) (s : string) : list string :=
  split_go sep "" s.

(** [xs.filter(Boolean)] on an array of strings drops the empty ones. *)
Definition filter_Boolean (xs : list string) : list string :=
  filter (fun s => negb (String.eqb s "")) xs.

(** [encodeURIComponent]: the unreserved characters are
    [A-Z a-z 0-9 - _ . ! ~ * ' ( )]; every other byte of the UTF-8 form
    becomes [%XX] in upper-case hexadecimal. *)
Definition unreserved (c : ascii) : bool :=
  let n := nat_of_ascii c in
  (((65 <=? n) && (n <=? 90)) || ((97 <=? n) && (n <=? 122))
   || ((48 <=? n) && (n <=? 57))
   || (n =? 45) || (n =? 95) || (n =? 46) || (n =? 33) || (n =? 126)
   || (n =? 42) || (n =? 39) || (n =? 40) || (n =? 41))%nat.

Definition hex_digit (n : nat) : ascii :=
  if (n <? 10)%nat then ascii_of_nat (48 + n) else ascii_of_nat (55 + n).

Definition percent (c : ascii) : string :=
  let n := nat_of_ascii c in
  String "%" (String (hex_digit (n / 16)) (String (hex_digit (n mod 16)) "")).

Fixpoint encodeURIComponent (s : string) : string :=
  match s with
  | EmptyString => ""
  | String c s' =>
      (if unreserved c then String c "" else percent c) ++ encodeURIComponent s'
  end.

End Js.

(** A thrown [Error]: [new Error(msg)] has the name ["Error"]; the AWS SDK
    sets [name] to the exception's code. *)
Record JsError : Type := mkError { name : string; message : string }.

Definition new_Error (msg : string) : JsError :=
  {| name := "Error"; message := msg |}.

(* ================================================================== *)
(** ** Configuration (server.js, lines 34-52) *)
(* ================================================================== *)

(** [process.env]: every variable is a string or [undefined]. *)
Module process.
Record env : Type := {
  SUPABASE_URL : option string;
  SUPABASE_SERVICE_KEY : option string;
  SUPABASE_ANON_KEY : option string;
  AWS_REGION : option string;
  AWS_ACCOUNT_ID : option string;
  ECS_CLUSTER : option string;
  ECR_REPOSITORY : option string;
  ECR_REGISTRY : option string;
  SUBNET_IDS : option string;
  SECURITY_GROUP_IDS : option string;
  ASSIGN_PUBLIC_IP : option string;
  ECS_EXECUTION_ROLE_ARN : option string;
  ECS_TASK_ROLE_ARN : option string;
  AI_ENGINE_URL : option string
}.
End process.

Definition AWS_REGION (e : process.env) : string :=
  Js.or_else (process.AWS_REGION e) "us-east-1".

Definition ECS_CLUSTER (e : process.env) : string :=
  Js.or_else (process.ECS_CLUSTER e) "hyperliquid-agents".

Definition ECR_REPOSITORY (e : process.env) : string :=
  Js.or_else (process.ECR_REPOSITORY e) "hyperliquid-agent".

Definition ECR_REGISTRY (e : process.env) : string :=
  Js.or_else (process.ECR_REGISTRY e)
    (Js.template (process.AWS_ACCOUNT_ID e) ++ ".dkr.ecr." ++ AWS_REGION e
       ++ ".amazonaws.com").

Definition SUBNET_IDS (e : process.env) : list string :=
  Js.filter_Boolean (Js.split "," (Js.or_else (process.SUBNET_IDS e) "")).

Definition SECURITY_GROUP_IDS (e : process.env) : list string :=
  Js.filter_Boolean
    (Js.split "," (Js.or_else (process.SECURITY_GROUP_IDS e) "")).

Definition ASSIGN_PUBLIC_IP (e : process.env) : bool :=
  match process.ASSIGN_PUBLIC_IP e with
  | Some s => String.eqb s "true"
  | None => false
  end.

Definition ECS_EXECUTION_ROLE_ARN (e : process.env) : option string :=
  process.ECS_EXECUTION_ROLE_ARN e.

Definition ECS_TASK_ROLE_ARN (e : process.env) : option string :=
  Js.or_null (process.ECS_TASK_ROLE_ARN e).

Definition AI_ENGINE_URL (e : process.env) : string :=
  Js.or_else (process.AI_ENGINE_URL e) "http://localhost:8000".

(* ================================================================== *)
(** ** The SDK commands the deployer sends, with their inputs *)
(* ================================================================== *)

Module CreateLogGroup.
Record Input : Type := { logGroupName : string }.
End CreateLogGroup.

Module PutRetentionPolicy.
Record Input : Type := { logGroupName : string; retentionInDays : Z }.
End PutRetentionPolicy.

Module KeyValuePair.
Record t : Type := { name : string; value : option string }.
End KeyValuePair.

Module LogConfiguration.
Record t : Type := { logDriver : string; options : list (string * string) }.
End LogConfiguration.

Module HealthCheck.
Record t : Type := {
  command : list string;
  interval : Z;
  timeout : Z;
  retries : Z;
  startPeriod : Z
}.
End HealthCheck.

Module ContainerDefinition.
Record t : Type := {
  name : string;
  image : string;
  essential : bool;
  environment : list KeyValuePair.t;
  command : list string;
  logConfiguration : LogConfiguration.t;
  healthCheck : HealthCheck.t
}.
End ContainerDefinition.

Module RegisterTaskDefinition.
Record Input : Type := {
  family : string;
  requiresCompatibilities : list string;
  networkMode : string;
  cpu : string;
  memory : string;
  executionRoleArn : option string;
  taskRoleArn : option string;
  containerDefinitions : list ContainerDefinition.t
}.
Record TaskDefinition : Type := { taskDefinitionArn : string }.
Record Output : Type := { taskDefinition : TaskDefinition }.
End RegisterTaskDefinition.

Module DeploymentConfiguration.
Record t : Type := { maximumPercent : Z; minimumHealthyPercent : Z }.
End DeploymentConfiguration.

Module AwsvpcConfiguration.
Record t : Type := {
  subnets : list string;
  securityGroups : list string;
  assignPublicIp : string
}.
End AwsvpcConfiguration.

(** A service as the platform describes it; [status] may be missing. *)
Record Service : Type := { serviceArn : string; status : option string }.

Module CreateService.
Record Input : Type := {
  cluster : string;
  serviceName : string;
  taskDefinition : string;
  desiredCount : Z;
  launchType : string;
  awsvpcConfiguration : AwsvpcConfiguration.t;
  deploymentConfiguration : DeploymentConfiguration.t
}.
Record Output : Type := { service : Service }.
End CreateService.

(** The member [service] of the input is [service_] here, and [services] of
    the describe input [services_], to keep them apart from the outputs'
    members of the same names. *)
Module UpdateService.
Record Input : Type := {
  cluster : string;
  service_ : string;
  taskDefinition : string;
  forceNewDeployment : bool;
  desiredCount : Z;
  deploymentConfiguration : DeploymentConfiguration.t
}.
Record Output : Type := { service : Service }.
End UpdateService.

Module DeleteService.
Record Input : Type := { cluster : string; service : string; force : bool }.
End DeleteService.

Module DescribeServices.
Record Input : Type := { cluster : string; services_ : list string }.
(** [desc.services] may be [undefined]. *)
Record Output : Type := { services : option (list Service) }.
End DescribeServices.

Inductive Command : Type :=
| CreateLogGroupCommand (i : CreateLogGroup.Input)
| PutRetentionPolicyCommand (i : PutRetentionPolicy.Input)
| RegisterTaskDefinitionCommand (i : RegisterTaskDefinition.Input)
| CreateServiceCommand (i : CreateService.Input)
| UpdateServiceCommand (i : UpdateService.Input)
| DeleteServiceCommand (i : DeleteService.Input)
| DescribeServicesCommand (i : DescribeServices.Input).

(** What a fulfilled [client.send(command)] resolves to.  A fulfilled
    response is taken to carry the member the code reads from it
    ([taskDefinition.taskDefinitionArn], [service.serviceArn]). *)
Definition Output (c : Command) : Type :=
  match c with
  | CreateLogGroupCommand _ => unit
  | PutRetentionPolicyCommand _ => unit
  | RegisterTaskDefinitionCommand _ => RegisterTaskDefinition.Output
  | CreateServiceCommand _ => CreateService.Output
  | UpdateServiceCommand _ => UpdateService.Output
  | DeleteServiceCommand _ => unit
  | DescribeServicesCommand _ => DescribeServices.Output
  end.

(** The request body and the response data of the AI engine's
    [/generate] endpoint. *)
Record GenerateRequest : Type := { strategy_description : string }.

Module GenerateData.
Record t : Type := {
  success : bool;
  error : option string;
  initialization_code : option string;
  trigger_code : option string;
  execution_code : option string
}.
End GenerateData.

(* ================================================================== *)
(** ** Effects: the history, the oracles and the monad of [async] code *)
(* ================================================================== *)

Inductive Event : Type :=
| Sent (c : Command)                          (* client.send(new ...Command) *)
| Slept (ms : Z)                              (* awaited setTimeout *)
| Posted (url : string) (body : GenerateRequest) (* axios.post *)
| ConsoleLog (msg : string)
| ConsoleWarn (msg : string).

Definition History : Type := list Event.

Inductive Outcome (A : Type) : Type :=
| Fulfilled (a : A)
| Rejected (e : JsError).
Arguments Fulfilled {A} a.
Arguments Rejected {A} e.

(** The two AWS clients ([ecsClient], [logsClient]): the answer to a command
    may depend on everything that happened before it. *)
Definition Aws : Type := forall (h : History) (c : Command), Outcome (Output c).

(** [axios.post]: rejects (network failure, non-2xx status) or fulfils with
    the response's [data]. *)
Definition Axios : Type :=
  History -> string -> GenerateRequest -> Outcome GenerateData.t.

Definition M (A : Type) : Type := History -> Outcome A * History.

Definition ret {A : Type} (a : A) : M A := fun h => (Fulfilled a, h).

Definition throw {A : Type} (e : JsError) : M A := fun h => (Rejected e, h).

Definition bind {A B : Type} (m : M A) (k : A -> M B) : M B :=
  fun h =>
    match m h with
    | (Fulfilled a, h') => k a h'
    | (Rejected e, h') => (Rejected e, h')
    end.

(** [try { m } catch (err) { handler err }] *)
Definition try_catch {A : Type} (m : M A) (handler : JsError -> M A) : M A :=
  fun h =>
    match m h with
    | (Fulfilled a, h') => (Fulfilled a, h')
    | (Rejected e, h') => handler e h'
    end.

Definition emit (ev : Event) : M unit := fun h => (Fulfilled tt, (h ++ [ev])%list).

Definition send (aws : Aws) (c : Command) : M (Output c) :=
  fun h => (aws h c, (h ++ [Sent c])%list).

Definition post (axios : Axios) (url : string) (body : GenerateRequest)
  : M GenerateData.t :=
  fun h => (axios h url body, (h ++ [Posted url body])%list).

Declare Scope js_scope.
Delimit Scope js_scope with js.
Notation "'let*' x ':=' m 'in' k" := (bind m (fun x => k))
  (at level 10, x name, m at level 100, k at level 200) : js_scope.
Notation "m ';;' k" := (bind m (fun _ => k))
  (at level 100, k at level 200, right associativity) : js_scope.
Notation "'try' m 'catch' e '=>' k" := (try_catch m (fun e => k))
  (at level 10, e name, m at level 200, k at level 200) : js_scope.
Local Open Scope js_scope.

(* ================================================================== *)
(** ** The deployer's functions *)
(* ================================================================== *)

Record Credentials : Type := { apiKey : string; hyperliquidAddress : string }.

Record AgentCode : Type := {
  initialization_code : option string;
  trigger_code : option string;
  execution_code : option string
}.

(** What [deployToFargate] returns. *)
Module Deployment.
Record t : Type := {
  serviceArn : string;
  taskDefArn : string;
  logGroupName : string;
  logUrl : string
}.
End Deployment.

Section Deployer.

Variable env : process.env.
Variable aws : Aws.
Variable axios : Axios.

(** server.js, lines 58-72.  The parameter [useTestCode] (whatever the
    request body held under that key, [false] when it held nothing) is
    overwritten by the first statement. *)
Definition generateAgentCode (strategyDescription : string)
    (useTestCode : Js.value) : M AgentCode :=
  let useTestCode := Js.boolean false in
  emit (ConsoleLog "🤖 Calling AI engine...") ;;
  let* data := post axios (AI_ENGINE_URL env ++ "/generate")
                 {| strategy_description := strategyDescription |} in
  if negb (GenerateData.success data)
  then throw (new_Error
                (Js.or_else (GenerateData.error data) "Code generation failed"))
  else ret {| initialization_code := GenerateData.initialization_code data;
              trigger_code := GenerateData.trigger_code data;
              execution_code := GenerateData.execution_code data |}.

(** server.js, lines 102-118. *)
Definition ensureLogGroup (agentId : string) : M string :=
  let logGroupName := "/ecs/hyperliquid-agents/" ++ agentId in
  (try
     (send aws (CreateLogGroupCommand
                  {| CreateLogGroup.logGroupName := logGroupName |}) ;;
      ret tt)
   catch err =>
     if negb (String.eqb (name err) "ResourceAlreadyExistsException")
     then throw err
     else ret tt) ;;
  (try
     (send aws (PutRetentionPolicyCommand
                  {| PutRetentionPolicy.logGroupName := logGroupName;
                     PutRetentionPolicy.retentionInDays := 30 |}) ;;
      ret tt)
   catch err =>
     emit (ConsoleWarn ("Retention policy failed: " ++ message err))) ;;
  ret logGroupName.

(** server.js, lines 190-210: the helper nested in [deployToFargate]; the
    two variables it closes over are its parameters here. *)
Definition createNewService (serviceName taskDefArn : string) : M string :=
  let* createResp :=
    send aws (CreateServiceCommand
      {| CreateService.cluster := ECS_CLUSTER env;
         CreateService.serviceName := serviceName;
         CreateService.taskDefinition := taskDefArn;
         CreateService.desiredCount := 1;
         CreateService.launchType := "FARGATE";
         CreateService.awsvpcConfiguration :=
           {| AwsvpcConfiguration.subnets := SUBNET_IDS env;
              AwsvpcConfiguration.securityGroups := SECURITY_GROUP_IDS env;
              AwsvpcConfiguration.assignPublicIp :=
                if ASSIGN_PUBLIC_IP env then "ENABLED" else "DISABLED" |};
         CreateService.deploymentConfiguration :=
           {| DeploymentConfiguration.maximumPercent := 200;
              DeploymentConfiguration.minimumHealthyPercent := 100 |} |}) in
  ret (serviceArn (CreateService.service createResp)).

(** server.js, lines 212-275: the statement of [deployToFargate] that
    assigns [serviceArn] (the service reconciler); the two variables of the
    enclosing function it reads are its parameters here. *)
Definition reconcileService (serviceName taskDefArn : string) : M string :=
  (* Check if service already exists *)
  try
    (let* desc :=
       send aws (DescribeServicesCommand
         {| DescribeServices.cluster := ECS_CLUSTER env;
            DescribeServices.services_ := [serviceName] |}) in
     match DescribeServices.services desc with
     | Some (existingService :: _) =>
         (* If service exists, try to update it regardless of status *)
         try
           (let* updateResp :=
              send aws (UpdateServiceCommand
                {| UpdateService.cluster := ECS_CLUSTER env;
                   UpdateService.service_ := serviceName;
                   UpdateService.taskDefinition := taskDefArn;
                   UpdateService.forceNewDeployment := true;
                   UpdateService.desiredCount := 1;
                   UpdateService.deploymentConfiguration :=
                     {| DeploymentConfiguration.maximumPercent := 200;
                        DeploymentConfiguration.minimumHealthyPercent := 100
                     |} |}) in
            let serviceArn := serviceArn (UpdateService.service updateResp) in
            emit (ConsoleLog ("✅ Service updated: " ++ serviceArn
                    ++ " (previous status: "
                    ++ Js.template (status existingService) ++ ")")) ;;
            ret serviceArn)
         catch updateErr =>
           (* If update fails (e.g., service is INACTIVE), delete and
              recreate *)
           emit (ConsoleWarn ("Failed to update service ("
                   ++ Js.template (status existingService)
                   ++ "), deleting and recreating: " ++ message updateErr)) ;;
           try
             ((* Delete the existing service *)
              send aws (DeleteServiceCommand
                {| DeleteService.cluster := ECS_CLUSTER env;
                   DeleteService.service := serviceName;
                   DeleteService.force := true |}) ;;
              emit (ConsoleLog ("🗑️  Deleted inactive service: "
                      ++ serviceName)) ;;
              (* Wait a moment for deletion to propagate *)
              emit (Slept 2000) ;;
              (* Create new service *)
              let* serviceArn := createNewService serviceName taskDefArn in
              emit (ConsoleLog ("✅ Service recreated: " ++ serviceArn)) ;;
              ret serviceArn)
           catch deleteErr =>
             throw (new_Error ("Failed to update or delete service: "
                      ++ message updateErr ++ ". Delete attempt: "
                      ++ message deleteErr))
     | _ =>
         (* Service doesn't exist, create it *)
         let* serviceArn := createNewService serviceName taskDefArn in
         emit (ConsoleLog ("✅ Service created: " ++ serviceArn)) ;;
         ret serviceArn
     end)
  catch err =>
    (* If DescribeServices fails (service doesn't exist), create it *)
    if String.eqb (name err) "ServiceNotFoundException"
       || Js.includes (message err) "not found"
    then
      try
        (let* serviceArn := createNewService serviceName taskDefArn in
         emit (ConsoleLog ("✅ Service created: " ++ serviceArn)) ;;
         ret serviceArn)
      catch createErr =>
        throw (new_Error ("Failed to create service: " ++ message createErr))
    else
      throw (new_Error ("Failed to check service status: " ++ message err)).

(** server.js, lines 120-283. *)
Definition deployToFargate (agentId : string) (credentials : Credentials)
  : M Deployment.t :=
  emit (ConsoleLog ("🚀 Deploying service for agent " ++ agentId)) ;;
  (* Validate required AWS configuration *)
  if (length (SUBNET_IDS env) =? 0)%nat
  then throw (new_Error "SUBNET_IDS environment variable is required")
  else
  if (length (SECURITY_GROUP_IDS env) =? 0)%nat
  then throw (new_Error "SECURITY_GROUP_IDS environment variable is required")
  else
  if Js.falsy (ECS_EXECUTION_ROLE_ARN env)
  then throw (new_Error
                "ECS_EXECUTION_ROLE_ARN environment variable is required")
  else
  let* logGroupName := ensureLogGroup agentId in
  let imageUri := ECR_REGISTRY env ++ "/" ++ ECR_REPOSITORY env ++ ":latest" in
  let environment :=
    [ {| KeyValuePair.name := "AGENT_ID";
         KeyValuePair.value := Some agentId |};
      {| KeyValuePair.name := "HYPERLIQUID_PRIVATE_KEY";
         KeyValuePair.value := Some (apiKey credentials) |};
      {| KeyValuePair.name := "HYPERLIQUID_ADDRESS";
         KeyValuePair.value := Some (hyperliquidAddress credentials) |};
      {| KeyValuePair.name := "SUPABASE_URL";
         KeyValuePair.value := process.SUPABASE_URL env |};
      {| KeyValuePair.name := "SUPABASE_ANON_KEY";
         KeyValuePair.value := process.SUPABASE_ANON_KEY env |};
      {| KeyValuePair.name := "AWS_REGION";
         KeyValuePair.value := Some (AWS_REGION env) |};
      {| KeyValuePair.name := "LOG_GROUP_NAME";
         KeyValuePair.value := Some logGroupName |} ] in
  let taskFamily := "hyperliquid-agent-" ++ agentId in
  (* Register task definition *)
  let* taskDefResp :=
    send aws (RegisterTaskDefinitionCommand
      {| RegisterTaskDefinition.family := taskFamily;
         RegisterTaskDefinition.requiresCompatibilities := ["FARGATE"];
         RegisterTaskDefinition.networkMode := "awsvpc";
         RegisterTaskDefinition.cpu := "512";
         RegisterTaskDefinition.memory := "1024";
         RegisterTaskDefinition.executionRoleArn := ECS_EXECUTION_ROLE_ARN env;
         RegisterTaskDefinition.taskRoleArn := ECS_TASK_ROLE_ARN env;
         RegisterTaskDefinition.containerDefinitions :=
           [ {| ContainerDefinition.name := "agent";
                ContainerDefinition.image := imageUri;
                ContainerDefinition.essential := true;
                ContainerDefinition.environment := environment;
                ContainerDefinition.command :=
                  ["sh"; "-c"; "node agentRunner.js $AGENT_ID"];
                ContainerDefinition.logConfiguration :=
                  {| LogConfiguration.logDriver := "awslogs";
                     LogConfiguration.options :=
                       [ ("awslogs-group", logGroupName);
                         ("awslogs-region", AWS_REGION env);
                         ("awslogs-stream-prefix", "agent");
                         ("awslogs-create-group", "true") ] |};
                ContainerDefinition.healthCheck :=
                  {| HealthCheck.command :=
                       ["CMD-SHELL";
                        "pgrep -f " ++ String (ascii_of_nat 34) "node agentRunner.js"
                          ++ String (ascii_of_nat 34) " || exit 1"];
                     HealthCheck.interval := 30;
                     HealthCheck.timeout := 5;
                     HealthCheck.retries := 3;
                     HealthCheck.startPeriod := 120 |} |} ] |}) in
  let taskDefArn :=
    RegisterTaskDefinition.taskDefinitionArn
      (RegisterTaskDefinition.taskDefinition taskDefResp) in
  let serviceName := "agent-svc-" ++ agentId in
  let* serviceArn := reconcileService serviceName taskDefArn in
  ret {| Deployment.serviceArn := serviceArn;
         Deployment.taskDefArn := taskDefArn;
         Deployment.logGroupName := logGroupName;
         Deployment.logUrl :=
           "https://" ++ AWS_REGION env
           ++ ".console.aws.amazon.com/cloudwatch/home?region="
           ++ AWS_REGION env ++ "#logsV2:log-groups/log-group/"
           ++ Js.encodeURIComponent logGroupName |}.

End Deployer.

(* ================================================================== *)
(** ** The datastore, the clock and the [/deploy] endpoint *)
(* ================================================================== *)

(** The error member of a Supabase reply. *)
Module PostgrestError.
Record t : Type := { message : string }.
End PostgrestError.

(** The object [createAgentRecord] inserts into [agents]. *)
Module AgentInsert.
Record Deployment : Type := { ecr_repository : string; ecs_cluster : string }.
Record t : Type := {
  user_id : string;
  agent_name : string;
  strategy_description : string;
  initialization_code : option string;
  trigger_code : option string;
  execution_code : option string;
  status : string;
  instruction : string;
  agent_deployed : bool;
  hyperliquid_address : string;
  deployment : Deployment
}.
End AgentInsert.

(** The objects the two updates of [agents] write; a member that is [None]
    is a key the object does not have. *)
Module AgentUpdate.
Record Deployment : Type := {
  service_arn : string;
  task_definition_arn : string;
  log_group : string;
  log_url : string;
  deployed_at : string
}.
Record t : Type := {
  status : string;
  agent_deployed : option bool;
  deployment : option Deployment;
  updated_at : string
}.
End AgentUpdate.

(** The row an insert returns; only its [id] is read. *)
Module AgentRow.
Record t : Type := { id : string }.
End AgentRow.

Inductive Query : Type :=
| Insert (row : AgentInsert.t)
    (* from('agents').insert(row).select().single() *)
| Update (patch : AgentUpdate.t) (id : string).
    (* from('agents').update(patch).eq('id', id) *)

(** What an awaited query resolves to: [{ data, error }] for an insert (one
    of the two is set), [{ error }] for an update. *)
Definition Reply (q : Query) : Type :=
  match q with
  | Insert _ => (PostgrestError.t + AgentRow.t)%type
  | Update _ _ => option PostgrestError.t
  end.

(** Everything observable while a request is handled: the events of the
    deployer's functions, the queries sent to the datastore, the readings of
    the clock and the lines of [console.error] (the value printed after the
    label is kept as its message). *)
Inductive Effect : Type :=
| Core (ev : Event)
| Queried (q : Query)
| ReadClock
| ConsoleError (label : string) (message : string).

Definition World : Type := list Effect.

(** The events of a world that the deployer's functions and their oracles
    see. *)
Fixpoint core (w : World) : History :=
  match w with
  | [] => []
  | Core ev :: w' => ev :: core w'
  | _ :: w' => core w'
  end.

(** The Supabase client: a query is rejected (the client throws) or
    fulfilled with a reply. *)
Definition Supabase : Type :=
  forall (w : World) (q : Query), Outcome (Reply q).

(** [new Date().toISOString()] *)
Definition Clock : Type := World -> string.

(** The monad of the endpoint's code. *)
Definition H (A : Type) : Type := World -> Outcome A * World.

Module Handler.

Definition ret {A : Type} (a : A) : H A := fun w => (Fulfilled a, w).

Definition throw {A : Type} (e : JsError) : H A := fun w => (Rejected e, w).

Definition bind {A B : Type} (m : H A) (k : A -> H B) : H B :=
  fun w =>
    match m w with
    | (Fulfilled a, w') => k a w'
    | (Rejected e, w') => (Rejected e, w')
    end.

Definition try_catch {A : Type} (m : H A) (handler : JsError -> H A) : H A :=
  fun w =>
    match m w with
    | (Fulfilled a, w') => (Fulfilled a, w')
    | (Rejected e, w') => handler e w'
    end.

Definition emit (e : Effect) : H unit :=
  fun w => (Fulfilled tt, (w ++ [e])%list).

Definition query (supabase : Supabase) (q : Query) : H (Reply q) :=
  fun w => (supabase w q, (w ++ [Queried q])%list).

Definition now (clock : Clock) : H string :=
  fun w => (Fulfilled (clock w), (w ++ [ReadClock])%list).

(** A call of one of the deployer's functions: it runs on the core events
    so far, and the events it adds are added to the world. *)
Definition call {A : Type} (m : M A) : H A :=
  fun w =>
    let (r, h) := m (core w) in
    (r, (w ++ map Core (skipn (length (core w)) h))%list).

End Handler.

Declare Scope handler_scope.
Delimit Scope handler_scope with handler.
Notation "'let*' x ':=' m 'in' k" := (Handler.bind m (fun x => k))
  (at level 10, x name, m at level 100, k at level 200) : handler_scope.
Notation "m ';;' k" := (Handler.bind m (fun _ => k))
  (at level 100, k at level 200, right associativity) : handler_scope.
Notation "'try' m 'catch' e '=>' k" := (Handler.try_catch m (fun e => k))
  (at level 10, e name, m at level 200, k at level 200) : handler_scope.

(** The argument of [createAgentRecord]. *)
Module AgentData.
Record t : Type := {
  userId : string;
  agentName : string;
  strategyDescription : string;
  hyperliquidAddress : string;
  initialization_code : option string;
  trigger_code : option string;
  execution_code : option string;
  isMainnet : Js.value;
  maxPositionSize : Js.value;
  maxLeverage : Js.value;
  dailyLossLimit : Js.value
}.
End AgentData.

(** The body of a [/deploy] request.  The five required members are strings
    or missing (what the front end sends); the others are any value. *)
Module DeployRequest.
Record body : Type := {
  userId : option string;
  agentName : option string;
  strategyDescription : option string;
  hyperliquidAddress : option string;
  apiKey : option string;
  isMainnet : Js.value;
  maxPositionSize : Js.value;
  maxLeverage : Js.value;
  dailyLossLimit : Js.value;
  useTestCode : Js.value
}.
End DeployRequest.

(** What the endpoint answers: a status code and one of its two JSON
    objects, [{ success: false, error }] or
    [{ success: true, agentId, serviceArn, taskDefArn, logUrl,
       status: 'running' }]. *)
Module Response.
Inductive json : Type :=
| Failure (error : string)
| Success (agentId serviceArn taskDefArn logUrl : string).
Record t : Type := { status : Z; body : json }.
End Response.

(** A destructuring default: [x = d] takes [d] when the member is
    [undefined]. *)
Definition default_to (v d : Js.value) : Js.value :=
  match v with
  | Js.undefined => d
  | _ => v
  end.

(** The string a member is, once it is known not to be falsy. *)
Definition the_string (v : option string) : string :=
  match v with
  | Some s => s
  | None => ""
  end.

Section Endpoint.

Local Open Scope handler_scope.

Variable env : process.env.
Variable aws : Aws.
Variable axios : Axios.
Variable supabase : Supabase.
Variable clock : Clock.

(** server.js, lines 74-100. *)
Definition createAgentRecord (agentData : AgentData.t) : H AgentRow.t :=
  let* reply :=
    Handler.query supabase (Insert
      {| AgentInsert.user_id := AgentData.userId agentData;
         AgentInsert.agent_name := AgentData.agentName agentData;
         AgentInsert.strategy_description :=
           AgentData.strategyDescription agentData;
         AgentInsert.initialization_code :=
           AgentData.initialization_code agentData;
         AgentInsert.trigger_code := AgentData.trigger_code agentData;
         AgentInsert.execution_code := AgentData.execution_code agentData;
         AgentInsert.status := "deploying";
         AgentInsert.instruction := "RUN";
         AgentInsert.agent_deployed := false;
         AgentInsert.hyperliquid_address :=
           AgentData.hyperliquidAddress agentData;
         AgentInsert.deployment :=
           {| AgentInsert.ecr_repository := ECR_REPOSITORY env;
              AgentInsert.ecs_cluster := ECS_CLUSTER env |} |}) in
  match reply with
  | inl error =>
      Handler.throw (new_Error ("Supabase insert failed: "
                                  ++ PostgrestError.message error))
  | inr data =>
      Handler.emit
        (Core (ConsoleLog ("✅ Agent created: " ++ AgentRow.id data))) ;;
      Handler.ret data
  end.

(** server.js, lines 285-304. *)
Definition updateAgentDeployment (agentId : string)
    (deploymentDetails : Deployment.t) : H unit :=
  let* deployed_at := Handler.now clock in
  let* updated_at := Handler.now clock in
  let* error :=
    Handler.query supabase (Update
      {| AgentUpdate.status := "running";
         AgentUpdate.agent_deployed := Some true;
         AgentUpdate.deployment := Some
           {| AgentUpdate.service_arn :=
                Deployment.serviceArn deploymentDetails;
              AgentUpdate.task_definition_arn :=
                Deployment.taskDefArn deploymentDetails;
              AgentUpdate.log_group :=
                Deployment.logGroupName deploymentDetails;
              AgentUpdate.log_url := Deployment.logUrl deploymentDetails;
              AgentUpdate.deployed_at := deployed_at |};
         AgentUpdate.updated_at := updated_at |} agentId) in
  match error with
  | Some error =>
      Handler.throw (new_Error ("Update failed: "
                                  ++ PostgrestError.message error))
  | None =>
      Handler.emit
        (Core (ConsoleLog "Agent record updated with deployment info"))
  end.

(** server.js, lines 310-382: the handler of [POST /deploy]; what it
    fulfils with is the response it sends. *)
Definition post_deploy (body : DeployRequest.body) : H Response.t :=
  try
    (let userId := DeployRequest.userId body in
     let agentName := DeployRequest.agentName body in
     let strategyDescription := DeployRequest.strategyDescription body in
     let hyperliquidAddress := DeployRequest.hyperliquidAddress body in
     let apiKey := DeployRequest.apiKey body in
     let isMainnet :=
       default_to (DeployRequest.isMainnet body) (Js.boolean true) in
     let maxPositionSize := DeployRequest.maxPositionSize body in
     let maxLeverage := DeployRequest.maxLeverage body in
     let dailyLossLimit := DeployRequest.dailyLossLimit body in
     let useTestCode :=
       default_to (DeployRequest.useTestCode body) (Js.boolean false) in
     if Js.falsy userId || Js.falsy agentName || Js.falsy strategyDescription
        || Js.falsy hyperliquidAddress || Js.falsy apiKey
     then
       Handler.ret
         {| Response.status := 400;
            Response.body := Response.Failure "Missing required fields" |}
     else
     let* code :=
       Handler.call
         (generateAgentCode env axios (the_string strategyDescription)
            useTestCode)
     in
     let* agent :=
       createAgentRecord
         {| AgentData.userId := the_string userId;
            AgentData.agentName := the_string agentName;
            AgentData.strategyDescription := the_string strategyDescription;
            AgentData.hyperliquidAddress := the_string hyperliquidAddress;
            AgentData.initialization_code := initialization_code code;
            AgentData.trigger_code := trigger_code code;
            AgentData.execution_code := execution_code code;
            AgentData.isMainnet := isMainnet;
            AgentData.maxPositionSize := maxPositionSize;
            AgentData.maxLeverage := maxLeverage;
            AgentData.dailyLossLimit := dailyLossLimit |} in
     let* deployment :=
       try
         (let* deployment :=
            Handler.call
              (deployToFargate env aws (AgentRow.id agent)
                 {| apiKey := the_string apiKey;
                    hyperliquidAddress := the_string hyperliquidAddress |})
          in
          updateAgentDeployment (AgentRow.id agent) deployment ;;
          Handler.ret deployment)
       catch deployError =>
         (* Update agent status to error on deployment failure *)
         Handler.emit
           (ConsoleError
              ("Deployment failed for agent " ++ AgentRow.id agent ++ ":")
              (message deployError)) ;;
         (try
            (let* updated_at := Handler.now clock in
             let* updateError :=
               Handler.query supabase (Update
                 {| AgentUpdate.status := "error";
                    AgentUpdate.agent_deployed := None;
                    AgentUpdate.deployment := None;
                    AgentUpdate.updated_at := updated_at |}
                 (AgentRow.id agent)) in
             match updateError with
             | Some updateError =>
                 Handler.emit
                   (ConsoleError "Failed to update agent status:"
                      (PostgrestError.message updateError))
             | None => Handler.ret tt
             end)
          catch statusUpdateErr =>
            Handler.emit
              (ConsoleError "Error updating agent status:"
                 (message statusUpdateErr))) ;;
         Handler.throw deployError
     in
     Handler.ret
       {| Response.status := 200;
          Response.body :=
            Response.Success (AgentRow.id agent)
              (Deployment.serviceArn deployment)
              (Deployment.taskDefArn deployment)
              (Deployment.logUrl deployment) |})
  catch error =>
    Handler.emit (ConsoleError "Deployment failed:" (message error)) ;;
    Handler.ret
      {| Response.status := 500;
         Response.body := Response.Failure (message error) |}.

End Endpoint.

(* ================================================================== *)
(** ** Reading a run *)
(* ================================================================== *)

(** The SDK commands of a history, in the order they were sent. *)
Fixpoint commands (h : History) : list Command :=
  match h with
  | [] => []
  | Sent c :: h' => c :: commands h'
  | _ :: h' => commands h'
  end.

(** The test of the [catch] at server.js line 265. *)
Definition not_found_error (err : JsError) : bool :=
  String.eqb (name err) "ServiceNotFoundException"
  || Js.includes (message err) "not found".

(** The operation a command names. *)
Definition operation (c : Command) : string :=
  match c with
  | CreateLogGroupCommand _ => "CreateLogGroup"
  | PutRetentionPolicyCommand _ => "PutRetentionPolicy"
  | RegisterTaskDefinitionCommand _ => "RegisterTaskDefinition"
  | CreateServiceCommand _ => "CreateService"
  | UpdateServiceCommand _ => "UpdateService"
  | DeleteServiceCommand _ => "DeleteService"
  | DescribeServicesCommand _ => "DescribeServices"
  end.

(** The operations of a history, in order. *)
Definition operations (h : History) : list string :=
  map operation (commands h).

(** The rollout the reconciler asks for. *)
Definition rollout : DeploymentConfiguration.t :=
  {| DeploymentConfiguration.maximumPercent := 200;
     DeploymentConfiguration.minimumHealthyPercent := 100 |}.

(** The container images a history registered. *)
Definition registered_images (h : History) : list string :=
  flat_map (fun c =>
              match c with
              | RegisterTaskDefinitionCommand i =>
                  map ContainerDefinition.image
                    (RegisterTaskDefinition.containerDefinitions i)
              | _ => []
              end) (commands h).

(* ================================================================== *)
(** ** Properties of a run *)
(* ================================================================== *)

(** Events of the stages before the reconciler: console lines and the
    log-group and task-definition commands. *)
Definition setup_event (ev : Event) : Prop :=
  match ev with
  | Sent (CreateLogGroupCommand _) => True
  | Sent (PutRetentionPolicyCommand _) => True
  | Sent (RegisterTaskDefinitionCommand _) => True
  | ConsoleLog _ => True
  | ConsoleWarn _ => True
  | _ => False
  end.

(** The console line every call of [deployToFargate] starts with. *)
Definition banner (agentId : string) : Event :=
  ConsoleLog ("🚀 Deploying service for agent " ++ agentId).

(** What [deployToFargate] returns once the reconciler has fulfilled. *)
Definition deployment_of (env : process.env) (agentId taskDefArn : string)
    (serviceArn : string) : Deployment.t :=
  {| Deployment.serviceArn := serviceArn;
     Deployment.taskDefArn := taskDefArn;
     Deployment.logGroupName := "/ecs/hyperliquid-agents/" ++ agentId;
     Deployment.logUrl :=
       "https://" ++ AWS_REGION env
       ++ ".console.aws.amazon.com/cloudwatch/home?region="
       ++ AWS_REGION env ++ "#logsV2:log-groups/log-group/"
       ++ Js.encodeURIComponent ("/ecs/hyperliquid-agents/" ++ agentId) |}.

(** In a run that started at history [h] and appended [t]: a describe that
    found a service is followed at once by an update that forces a new
    deployment. *)
Definition update_on_found (aws : Aws) (h t : History) : Prop :=
  forall pre d post out svc rest,
    t = (pre ++ Sent (DescribeServicesCommand d) :: post)%list ->
    aws (h ++ pre)%list (DescribeServicesCommand d) = Fulfilled out ->
    DescribeServices.services out = Some (svc :: rest) ->
    exists u post',
      post = Sent (UpdateServiceCommand u) :: post'
      /\ UpdateService.forceNewDeployment u = true.

(** In a run that started at [h] and appended [t]: what precedes a delete is
    an update that the platform rejected, and the warning about it. *)
Definition delete_only_after_rejected_update (aws : Aws) (h t : History)
  : Prop :=
  forall pre d post,
    t = (pre ++ Sent (DeleteServiceCommand d) :: post)%list ->
    exists pre' u w e,
      pre = (pre' ++ [Sent (UpdateServiceCommand u); ConsoleWarn w])%list
      /\ aws (h ++ pre')%list (UpdateServiceCommand u) = Rejected e.

(** [sends_only P m]: whatever the platform answers, running [m] extends the
    history, and every command it sends satisfies [P]. *)
Definition sends_only (P : Command -> Prop) {A : Type} (m : M A) : Prop :=
  forall h, exists t, snd (m h) = (h ++ t)%list /\ Forall P (commands t).

(** A create or an update asks for one instance and the 200%/100%
    rollout. *)
Definition one_instance_rollout (c : Command) : Prop :=
  match c with
  | CreateServiceCommand i =>
      CreateService.desiredCount i = 1%Z
      /\ CreateService.deploymentConfiguration i = rollout
  | UpdateServiceCommand i =>
      UpdateService.desiredCount i = 1%Z
      /\ UpdateService.deploymentConfiguration i = rollout
  | _ => True
  end.

(** The names [deployToFargate] derives from the agent's identity, as they
    appear in the commands it sends. *)
Definition derived_names (agentId : string) (c : Command) : Prop :=
  match c with
  | CreateLogGroupCommand i =>
      CreateLogGroup.logGroupName i = "/ecs/hyperliquid-agents/" ++ agentId
  | PutRetentionPolicyCommand i =>
      PutRetentionPolicy.logGroupName i
      = "/ecs/hyperliquid-agents/" ++ agentId
  | RegisterTaskDefinitionCommand i =>
      RegisterTaskDefinition.family i = "hyperliquid-agent-" ++ agentId
  | CreateServiceCommand i =>
      CreateService.serviceName i = "agent-svc-" ++ agentId
  | UpdateServiceCommand i =>
      UpdateService.service_ i = "agent-svc-" ++ agentId
  | DeleteServiceCommand i =>
      DeleteService.service i = "agent-svc-" ++ agentId
  | DescribeServicesCommand i =>
      DescribeServices.services_ i = ["agent-svc-" ++ agentId]
  end.

(** The task families a history registered. *)
Definition registered_families (h : History) : list string :=
  flat_map (fun c =>
              match c with
              | RegisterTaskDefinitionCommand i =>
                  [RegisterTaskDefinition.family i]
              | _ => []
              end) (commands h).

(** The image the process configuration fixes. *)
Definition configured_image (env : process.env) : string :=
  ECR_REGISTRY env ++ "/" ++ ECR_REPOSITORY env ++ ":latest".

(** A task definition declares one container, with the configured image. *)
Definition image_from_configuration (env : process.env) (c : Command)
  : Prop :=
  match c with
  | RegisterTaskDefinitionCommand i =>
      map ContainerDefinition.image
        (RegisterTaskDefinition.containerDefinitions i)
      = [configured_image env]
  | _ => True
  end.

(** The two ways a describe call signals that the service is absent: a
    result with no service in it, or a rejection the code reads as
    not-found. *)
Definition absent (o : Outcome DescribeServices.Output) : Prop :=
  match o with
  | Fulfilled out =>
      DescribeServices.services out = None
      \/ DescribeServices.services out = Some []
  | Rejected e => not_found_error e = true
  end.

(** In a run that started at [h], appended [t] and ended with [result]: a
    describe that signalled absence is followed at once by a create of
    [serviceName]; and when that create is fulfilled, the run sends nothing
    further and returns the handle of the created service. *)
Definition create_on_absent {A : Type} (handle : A -> string) (aws : Aws)
    (serviceName : string) (h t : History) (result : Outcome A) : Prop :=
  forall pre d post,
    t = (pre ++ Sent (DescribeServicesCommand d) :: post)%list ->
    absent (aws (h ++ pre)%list (DescribeServicesCommand d)) ->
    exists c post',
      post = Sent (CreateServiceCommand c) :: post'
      /\ CreateService.serviceName c = serviceName
      /\ forall out,
           aws (h ++ pre ++ [Sent (DescribeServicesCommand d)])%list
             (CreateServiceCommand c) = Fulfilled out ->
           commands post' = []
           /\ exists r,
                result = Fulfilled r
                /\ handle r = serviceArn (CreateService.service out).

(** In a run that appended [t] and ended with [result]: either the run was
    rejected before the reconciler, having produced setup events only, or
    the first thing after the setup is a describe of [serviceName] in the
    configured cluster. *)
Definition describes_after_setup {A : Type} (env : process.env)
    (serviceName : string) (t : History) (result : Outcome A) : Prop :=
  (Forall setup_event t /\ exists e, result = Rejected e)
  \/ (exists pre post,
        t = (pre ++ Sent (DescribeServicesCommand
                            {| DescribeServices.cluster := ECS_CLUSTER env;
                               DescribeServices.services_ := [serviceName] |})
                 :: post)%list
        /\ Forall setup_event pre).

(** In a run that started at [h], appended [t] and ended with [result]: a
    create sent right after a describe answers a signal of absence; and
    when it is rejected, what follows depends on the signal.  After a
    describe rejected as not found, nothing more is sent and the run
    rejects with "Failed to create service: " and the create's reason.
    After a describe fulfilled with no service, a reason not read as
    not-found ends the run with "Failed to check service status: " and that
    reason, while a reason read as not-found has the same create sent once
    more, whose answer ends the run: its service's handle, or "Failed to
    create service: " and its reason. *)
Definition create_failure_on_absent (aws : Aws) (h t : History)
    (result : Outcome string) : Prop :=
  forall pre d c post e,
    t = (pre ++ Sent (DescribeServicesCommand d)
             :: Sent (CreateServiceCommand c) :: post)%list ->
    let h1 := (h ++ pre ++ [Sent (DescribeServicesCommand d)])%list in
    aws h1 (CreateServiceCommand c) = Rejected e ->
    absent (aws (h ++ pre)%list (DescribeServicesCommand d))
    /\ match aws (h ++ pre)%list (DescribeServicesCommand d) with
       | Rejected _ =>
           post = []
           /\ result
              = Rejected (new_Error ("Failed to create service: "
                                       ++ message e))
       | Fulfilled _ =>
           if not_found_error e then
             exists post',
               post = Sent (CreateServiceCommand c) :: post'
               /\ commands post' = []
               /\ match aws (h1 ++ [Sent (CreateServiceCommand c)])%list
                          (CreateServiceCommand c) with
                  | Fulfilled out =>
                      result
                      = Fulfilled (serviceArn (CreateService.service out))
                  | Rejected e' =>
                      post' = []
                      /\ result
                         = Rejected (new_Error ("Failed to create service: "
                                                  ++ message e'))
                  end
           else
             post = []
             /\ result
                = Rejected (new_Error ("Failed to check service status: "
                                         ++ message e))
       end.

(** The text of the error thrown at server.js line 255. *)
Definition recovery_failure_text (updateErr deleteErr : JsError) : string :=
  "Failed to update or delete service: " ++ message updateErr
  ++ ". Delete attempt: " ++ message deleteErr.

(** In a run that started at [h] and appended [t]: a rejected update is
    followed by a warning and a forced delete of the same service; and when
    the delete is fulfilled, by a console line, a wait of 2000 ms and a
    create of that service. *)
Definition recreate_after_rejected_update (aws : Aws) (h t : History)
  : Prop :=
  forall pre u post e,
    t = (pre ++ Sent (UpdateServiceCommand u) :: post)%list ->
    aws (h ++ pre)%list (UpdateServiceCommand u) = Rejected e ->
    exists w d post',
      post = ConsoleWarn w :: Sent (DeleteServiceCommand d) :: post'
      /\ DeleteService.force d = true
      /\ DeleteService.service d = UpdateService.service_ u
      /\ forall o,
           aws (h ++ pre ++ [Sent (UpdateServiceCommand u); ConsoleWarn w])%list
             (DeleteServiceCommand d) = Fulfilled o ->
           exists l c post'',
             post' = ConsoleLog l :: Slept 2000
                       :: Sent (CreateServiceCommand c) :: post''
             /\ CreateService.serviceName c = DeleteService.service d.

(** In a run that started at [h], appended [t] and ended with [result]: if
    an update was rejected with [eu], the recovery was rejected with [er]
    (by the delete, or by the create after a fulfilled delete), and the text
    combining the two has no "not found" in it, then the rejected command
    is the last event of the run, which rejects with that text behind
    "Failed to check service status: ". *)
Definition recovery_failure_reported (aws : Aws) (h t : History)
    (result : Outcome string) : Prop :=
  forall pre u w d post eu er,
    t = (pre ++ Sent (UpdateServiceCommand u) :: ConsoleWarn w
             :: Sent (DeleteServiceCommand d) :: post)%list ->
    aws (h ++ pre)%list (UpdateServiceCommand u) = Rejected eu ->
    let h' := (h ++ pre ++ [Sent (UpdateServiceCommand u); ConsoleWarn w])%list
    in
    aws h' (DeleteServiceCommand d) = Rejected er
    \/ (exists o l c,
          aws h' (DeleteServiceCommand d) = Fulfilled o
          /\ firstn 3 post
             = [ConsoleLog l; Slept 2000; Sent (CreateServiceCommand c)]
          /\ aws (h' ++ [Sent (DeleteServiceCommand d); ConsoleLog l;
                         Slept 2000])%list
               (CreateServiceCommand c) = Rejected er) ->
    Js.includes (recovery_failure_text eu er) "not found" = false ->
    (aws h' (DeleteServiceCommand d) = Rejected er -> post = [])
    /\ skipn 3 post = []
    /\ exists err,
         result = Rejected err
         /\ message err
            = "Failed to check service status: "
              ++ recovery_failure_text eu er
         /\ Js.Contains (message err) (message eu)
         /\ Js.Contains (message err) (message er).

(** In a run that started at [h], appended [t] and ended with [result]: a
    describe rejected with an error that is not read as not-found ends the
    run, which rejects with "Failed to check service status: " and the
    error's message. *)
Definition describe_failure_fatal (aws : Aws) (h t : History)
    (result : Outcome string) : Prop :=
  forall pre d post e,
    t = (pre ++ Sent (DescribeServicesCommand d) :: post)%list ->
    aws (h ++ pre)%list (DescribeServicesCommand d) = Rejected e ->
    not_found_error e = false ->
    post = []
    /\ result
       = Rejected (new_Error ("Failed to check service status: " ++ message e)).

(** [s] has no occurrence of the character [sep]. *)
Fixpoint free_of (sep : ascii) (s : string) : Prop :=
  match s with
  | EmptyString => True
  | String c s' => c <> sep /\ free_of sep s'
  end.

(** An identifier as the comma-separated lists of the configuration hold
    them: not empty, and with no comma in it. *)
Definition identifier (s : string) : Prop := s <> "" /\ free_of "," s.

(** The value of a hexadecimal digit, and the inverse of
    [Js.encodeURIComponent] (JavaScript's [decodeURIComponent], on the
    strings the former produces). *)
Definition hex_value (c : ascii) : nat :=
  let n := nat_of_ascii c in
  if (n <? 58)%nat then (n - 48)%nat else (n - 55)%nat.

Fixpoint decodeURIComponent (s : string) : string :=
  match s with
  | EmptyString => ""
  | String c s1 =>
      if Ascii.eqb c "%" then
        match s1 with
        | String a (String b rest) =>
            String (ascii_of_nat (16 * hex_value a + hex_value b))
              (decodeURIComponent rest)
        | _ => String c (decodeURIComponent s1)
        end
      else String c (decodeURIComponent s1)
  end.

(** The sequences of operations a run of the reconciler can send. *)
Definition reconcile_protocols : list (list string) :=
  [ ["DescribeServices"];
    ["DescribeServices"; "CreateService"];
    ["DescribeServices"; "CreateService"; "CreateService"];
    ["DescribeServices"; "UpdateService"];
    ["DescribeServices"; "UpdateService"; "DeleteService"];
    ["DescribeServices"; "UpdateService"; "DeleteService"; "CreateService"];
    ["DescribeServices"; "UpdateService"; "DeleteService"; "CreateService";
     "CreateService"] ].

(** The sequences of operations a run of [deployToFargate] can send. *)
Definition deploy_protocols : list (list string) :=
  let setup :=
    ["CreateLogGroup"; "PutRetentionPolicy"; "RegisterTaskDefinition"] in
  ([ []; ["CreateLogGroup"]; setup ]
   ++ map (fun p => setup ++ p) reconcile_protocols)%list.

(** A command that reaches the platform carries a usable placement and
    execution role. *)
Definition configured (c : Command) : Prop :=
  match c with
  | RegisterTaskDefinitionCommand i =>
      exists role,
        RegisterTaskDefinition.executionRoleArn i = Some role /\ role <> ""
  | CreateServiceCommand i =>
      AwsvpcConfiguration.subnets (CreateService.awsvpcConfiguration i) <> []
      /\ AwsvpcConfiguration.securityGroups
           (CreateService.awsvpcConfiguration i) <> []
  | _ => True
  end.

(** The task definition a service command asks the platform to run. *)
Definition task_definition_of (c : Command) : option string :=
  match c with
  | CreateServiceCommand i => Some (CreateService.taskDefinition i)
  | UpdateServiceCommand i => Some (UpdateService.taskDefinition i)
  | _ => None
  end.

(** A create or an update refers to the task definition [td]. *)
Definition refers_to (td : string) (c : Command) : Prop :=
  forall td', task_definition_of c = Some td' -> td' = td.

(** [served aws h c arn]: at history [h] the platform fulfilled the create
    or update [c] with a service whose handle is [arn]. *)
Inductive served (aws : Aws) (h : History) : Command -> string -> Prop :=
| served_create (i : CreateService.Input) (out : CreateService.Output) :
    aws h (CreateServiceCommand i) = Fulfilled out ->
    served aws h (CreateServiceCommand i)
      (serviceArn (CreateService.service out))
| served_update (i : UpdateService.Input) (out : UpdateService.Output) :
    aws h (UpdateServiceCommand i) = Fulfilled out ->
    served aws h (UpdateServiceCommand i)
      (serviceArn (UpdateService.service out)).

(** In a run that started at [h] and appended [t]: every create and update
    refers to the task definition that the platform answered to a register
    command sent earlier in the run. *)
Definition runs_what_was_registered (aws : Aws) (h t : History) : Prop :=
  forall pre c post td,
    t = (pre ++ Sent c :: post)%list ->
    task_definition_of c = Some td ->
    exists pre0 i mid out,
      pre = (pre0 ++ Sent (RegisterTaskDefinitionCommand i) :: mid)%list
      /\ aws (h ++ pre0)%list (RegisterTaskDefinitionCommand i) = Fulfilled out
      /\ td = RegisterTaskDefinition.taskDefinitionArn
                (RegisterTaskDefinition.taskDefinition out).

(** In a run that started at [h] and appended [t]: the last command sent was
    a create or an update, only a console line follows it, and the platform
    fulfilled it with the service handle [arn]. *)
Definition handle_of_last_command (aws : Aws) (h t : History) (arn : string)
  : Prop :=
  exists pre c l,
    t = (pre ++ [Sent c; ConsoleLog l])%list
    /\ served aws (h ++ pre)%list c arn.

(** The container of a registered task definition is told the agent and the
    log group, and writes its logs to that group. *)
Definition routed_to (agentId logGroupName : string) (c : Command) : Prop :=
  match c with
  | CreateLogGroupCommand i => CreateLogGroup.logGroupName i = logGroupName
  | RegisterTaskDefinitionCommand i =>
      RegisterTaskDefinition.containerDefinitions i <> []
      /\ Forall (fun cd =>
                   In ("awslogs-group", logGroupName)
                     (LogConfiguration.options
                        (ContainerDefinition.logConfiguration cd))
                   /\ In {| KeyValuePair.name := "LOG_GROUP_NAME";
                            KeyValuePair.value := Some logGroupName |}
                        (ContainerDefinition.environment cd)
                   /\ In {| KeyValuePair.name := "AGENT_ID";
                            KeyValuePair.value := Some agentId |}
                        (ContainerDefinition.environment cd))
           (RegisterTaskDefinition.containerDefinitions i)
  | _ => True
  end.

(** The queries of a world, in the order they were sent. *)
Fixpoint queries (w : World) : list Query :=
  match w with
  | [] => []
  | Queried q :: w' => q :: queries w'
  | _ :: w' => queries w'
  end.

(** What a query does: it inserts the row, or sets its status. *)
Definition purpose (q : Query) : string :=
  match q with
  | Insert _ => "insert"
  | Update patch _ => AgentUpdate.status patch
  end.

(** The five required members of a request body are there. *)
Definition complete (body : DeployRequest.body) : Prop :=
  Js.falsy (DeployRequest.userId body) = false
  /\ Js.falsy (DeployRequest.agentName body) = false
  /\ Js.falsy (DeployRequest.strategyDescription body) = false
  /\ Js.falsy (DeployRequest.hyperliquidAddress body) = false
  /\ Js.falsy (DeployRequest.apiKey body) = false.

(** The credentials the endpoint takes from a request body. *)
Definition credentials_of (body : DeployRequest.body) : Credentials :=
  {| apiKey := the_string (DeployRequest.apiKey body);
     hyperliquidAddress := the_string (DeployRequest.hyperliquidAddress body)
  |}.

(** The status codes of the endpoint, each with the purposes of the queries
    a request answered with it may have sent. *)
Definition bookkeeping : list (Z * list string) :=
  [ (400%Z, []);
    (500%Z, []);
    (500%Z, ["insert"]);
    (500%Z, ["insert"; "error"]);
    (500%Z, ["insert"; "running"; "error"]);
    (200%Z, ["insert"; "running"]) ].

(** The update that marks the row of [agentId] as failed. *)
Definition marks_error (agentId : string) (q : Query) : Prop :=
  exists stamp,
    q = Update {| AgentUpdate.status := "error";
                  AgentUpdate.agent_deployed := None;
                  AgentUpdate.deployment := None;
                  AgentUpdate.updated_at := stamp |} agentId.

(** How an update of the row can fail, with the message of the error the
    endpoint's code then sees. *)
Definition update_failed (o : Outcome (option PostgrestError.t))
    (msg : string) : Prop :=
  (exists err,
      o = Fulfilled (Some err)
      /\ msg = "Update failed: " ++ PostgrestError.message err)
  \/ (exists e, o = Rejected e /\ msg = message e).

(** How the code-generation request can fail, with the message of the error
    the endpoint's code then sees. *)
Definition generation_failed (o : Outcome GenerateData.t) (msg : string)
  : Prop :=
  (exists data,
      o = Fulfilled data /\ GenerateData.success data = false
      /\ msg = Js.or_else (GenerateData.error data) "Code generation failed")
  \/ (exists e, o = Rejected e /\ msg = message e).

(** The container of a registered task definition is given the
    credentials. *)
Definition forwards (credentials : Credentials) (c : Command) : Prop :=
  match c with
  | RegisterTaskDefinitionCommand i =>
      Forall (fun cd =>
                In {| KeyValuePair.name := "HYPERLIQUID_PRIVATE_KEY";
                      KeyValuePair.value := Some (apiKey credentials) |}
                  (ContainerDefinition.environment cd)
                /\ In {| KeyValuePair.name := "HYPERLIQUID_ADDRESS";
                         KeyValuePair.value :=
                           Some (hyperliquidAddress credentials) |}
                     (ContainerDefinition.environment cd))
        (RegisterTaskDefinition.containerDefinitions i)
  | _ => True
  end.

(* ================================================================== *)
(** ** Concrete worlds, for the examples *)
(* ================================================================== *)

Module Scenario.

(** A configured process: one subnet, one security group, an execution role. *)
Definition env0 : process.env :=
  {| process.SUPABASE_URL := Some "https://db.example";
     process.SUPABASE_SERVICE_KEY := Some "service-key";
     process.SUPABASE_ANON_KEY := Some "anon-key";
     process.AWS_REGION := None;
     process.AWS_ACCOUNT_ID := Some "123456789012";
     process.ECS_CLUSTER := None;
     process.ECR_REPOSITORY := None;
     process.ECR_REGISTRY := None;
     process.SUBNET_IDS := Some "s-1";
     process.SECURITY_GROUP_IDS := Some "g-1";
     process.ASSIGN_PUBLIC_IP := Some "true";
     process.ECS_EXECUTION_ROLE_ARN := Some "arn:aws:iam::123456789012:role/exec";
     process.ECS_TASK_ROLE_ARN := None;
     process.AI_ENGINE_URL := None |}.

(** The same process started without [SUBNET_IDS]. *)
Definition env_no_subnets : process.env :=
  {| process.SUPABASE_URL := Some "https://db.example";
     process.SUPABASE_SERVICE_KEY := Some "service-key";
     process.SUPABASE_ANON_KEY := Some "anon-key";
     process.AWS_REGION := None;
     process.AWS_ACCOUNT_ID := Some "123456789012";
     process.ECS_CLUSTER := None;
     process.ECR_REPOSITORY := None;
     process.ECR_REGISTRY := None;
     process.SUBNET_IDS := None;
     process.SECURITY_GROUP_IDS := Some "g-1";
     process.ASSIGN_PUBLIC_IP := Some "true";
     process.ECS_EXECUTION_ROLE_ARN := Some "arn:aws:iam::123456789012:role/exec";
     process.ECS_TASK_ROLE_ARN := None;
     process.AI_ENGINE_URL := None |}.

(** A platform that answers each kind of command the same way every time. *)
Record Script : Type := {
  on_createLogGroup : Outcome unit;
  on_putRetentionPolicy : Outcome unit;
  on_registerTaskDefinition : Outcome RegisterTaskDefinition.Output;
  on_describeServices : Outcome DescribeServices.Output;
  on_updateService : Outcome UpdateService.Output;
  on_deleteService : Outcome unit;
  on_createService : Outcome CreateService.Output
}.

Definition scripted (s : Script) : Aws :=
  fun _ c =>
    match c return Outcome (Output c) with
    | CreateLogGroupCommand _ => on_createLogGroup s
    | PutRetentionPolicyCommand _ => on_putRetentionPolicy s
    | RegisterTaskDefinitionCommand _ => on_registerTaskDefinition s
    | CreateServiceCommand _ => on_createService s
    | UpdateServiceCommand _ => on_updateService s
    | DeleteServiceCommand _ => on_deleteService s
    | DescribeServicesCommand _ => on_describeServices s
    end.

Definition registered : RegisterTaskDefinition.Output :=
  {| RegisterTaskDefinition.taskDefinition :=
       {| RegisterTaskDefinition.taskDefinitionArn := "arn:td/agent:7" |} |}.

Definition created : CreateService.Output :=
  {| CreateService.service :=
       {| serviceArn := "arn:svc/new"; status := Some "ACTIVE" |} |}.

Definition updated : UpdateService.Output :=
  {| UpdateService.service :=
       {| serviceArn := "arn:svc/old"; status := Some "ACTIVE" |} |}.

Definition old_service (st : string) : Service :=
  {| serviceArn := "arn:svc/old"; status := Some st |}.

(** No service yet, reported by an empty result set. *)
Definition absent_empty : Script :=
  {| on_createLogGroup := Fulfilled tt;
     on_putRetentionPolicy := Fulfilled tt;
     on_registerTaskDefinition := Fulfilled registered;
     on_describeServices :=
       Fulfilled {| DescribeServices.services := Some [] |};
     on_updateService := Rejected (mkError "ServiceNotFoundException" "Service not found.");
     on_deleteService := Rejected (mkError "ServiceNotFoundException" "Service not found.");
     on_createService := Fulfilled created |}.

(** No service yet, reported by the not-found exception. *)
Definition absent_exception : Script :=
  {| on_createLogGroup := Fulfilled tt;
     on_putRetentionPolicy := Fulfilled tt;
     on_registerTaskDefinition := Fulfilled registered;
     on_describeServices :=
       Rejected (mkError "ServiceNotFoundException" "Service not found.");
     on_updateService := Rejected (mkError "ServiceNotFoundException" "Service not found.");
     on_deleteService := Rejected (mkError "ServiceNotFoundException" "Service not found.");
     on_createService := Fulfilled created |}.

(** An active service that takes the update. *)
Definition active : Script :=
  {| on_createLogGroup :=
       Rejected (mkError "ResourceAlreadyExistsException"
                   "The specified log group already exists");
     on_putRetentionPolicy := Fulfilled tt;
     on_registerTaskDefinition := Fulfilled registered;
     on_describeServices :=
       Fulfilled {| DescribeServices.services := Some [old_service "ACTIVE"] |};
     on_updateService := Fulfilled updated;
     on_deleteService := Fulfilled tt;
     on_createService := Fulfilled created |}.

(** A draining service: the update is rejected, the forced delete and the
    create that follows succeed. *)
Definition draining : Script :=
  {| on_createLogGroup :=
       Rejected (mkError "ResourceAlreadyExistsException"
                   "The specified log group already exists");
     on_putRetentionPolicy :=
       Rejected (mkError "AccessDeniedException" "not authorized");
     on_registerTaskDefinition := Fulfilled registered;
     on_describeServices :=
       Fulfilled {| DescribeServices.services := Some [old_service "DRAINING"] |};
     on_updateService :=
       Rejected (mkError "ServiceNotActiveException" "Service was not ACTIVE.");
     on_deleteService := Fulfilled tt;
     on_createService := Fulfilled created |}.

(** A service deleted a moment ago: still described (as INACTIVE), but
    neither updatable nor deletable any more. *)
Definition inactive : Script :=
  {| on_createLogGroup :=
       Rejected (mkError "ResourceAlreadyExistsException"
                   "The specified log group already exists");
     on_putRetentionPolicy := Fulfilled tt;
     on_registerTaskDefinition := Fulfilled registered;
     on_describeServices :=
       Fulfilled {| DescribeServices.services := Some [old_service "INACTIVE"] |};
     on_updateService :=
       Rejected (mkError "ServiceNotActiveException" "Service was not ACTIVE.");
     on_deleteService :=
       Rejected (mkError "ServiceNotFoundException" "Service not found.");
     on_createService := Fulfilled created |}.

(** As [inactive], on a platform that also refuses to create the service. *)
Definition inactive_denied : Script :=
  {| on_createLogGroup :=
       Rejected (mkError "ResourceAlreadyExistsException"
                   "The specified log group already exists");
     on_putRetentionPolicy := Fulfilled tt;
     on_registerTaskDefinition := Fulfilled registered;
     on_describeServices :=
       Fulfilled {| DescribeServices.services := Some [old_service "INACTIVE"] |};
     on_updateService :=
       Rejected (mkError "ServiceNotActiveException" "Service was not ACTIVE.");
     on_deleteService :=
       Rejected (mkError "ServiceNotFoundException" "Service not found.");
     on_createService :=
       Rejected (mkError "AccessDeniedException" "create denied") |}.

(** The update is rejected and the delete is denied. *)
Definition stuck : Script :=
  {| on_createLogGroup := Fulfilled tt;
     on_putRetentionPolicy := Fulfilled tt;
     on_registerTaskDefinition := Fulfilled registered;
     on_describeServices :=
       Fulfilled {| DescribeServices.services := Some [old_service "DRAINING"] |};
     on_updateService :=
       Rejected (mkError "ServiceNotActiveException" "Service was not ACTIVE.");
     on_deleteService :=
       Rejected (mkError "AccessDeniedException" "delete denied");
     on_createService := Fulfilled created |}.

Definition creds : Credentials :=
  {| apiKey := "0xkey"; hyperliquidAddress := "0xaddr" |}.

(** A platform on which the service is absent, which [signal] is how the
    describe call tells, and on which the cluster is not visible yet when
    the first create arrives: that create is rejected, a later one is
    fulfilled. *)
Definition settling (signal : Outcome DescribeServices.Output) : Aws :=
  fun h c =>
    match c return Outcome (Output c) with
    | CreateLogGroupCommand _ => Fulfilled tt
    | PutRetentionPolicyCommand _ => Fulfilled tt
    | RegisterTaskDefinitionCommand _ => Fulfilled registered
    | DescribeServicesCommand _ => signal
    | UpdateServiceCommand _ =>
        Rejected (mkError "ServiceNotFoundException" "Service not found.")
    | DeleteServiceCommand _ =>
        Rejected (mkError "ServiceNotFoundException" "Service not found.")
    | CreateServiceCommand _ =>
        if existsb (String.eqb "CreateService") (operations h)
        then Fulfilled created
        else Rejected (mkError "ClusterNotFoundException"
                         "Cluster not found.")
    end.

(** The two signals of absence. *)
Definition nothing_found : Outcome DescribeServices.Output :=
  Fulfilled {| DescribeServices.services := Some [] |}.

Definition not_found : Outcome DescribeServices.Output :=
  Rejected (mkError "ServiceNotFoundException" "Service not found.").

End Scenario.

(** The worlds around the endpoint: an engine, a datastore, a clock and a
    few request bodies. *)
Module Caller.

(** [env0] with two subnets, written with a stray comma at the end. *)
Definition env_two_subnets : process.env :=
  {| process.SUPABASE_URL := Some "https://db.example";
     process.SUPABASE_SERVICE_KEY := Some "service-key";
     process.SUPABASE_ANON_KEY := Some "anon-key";
     process.AWS_REGION := None;
     process.AWS_ACCOUNT_ID := Some "123456789012";
     process.ECS_CLUSTER := None;
     process.ECR_REPOSITORY := None;
     process.ECR_REGISTRY := None;
     process.SUBNET_IDS := Some "s-1,s-2";
     process.SECURITY_GROUP_IDS := Some "g-1";
     process.ASSIGN_PUBLIC_IP := Some "true";
     process.ECS_EXECUTION_ROLE_ARN := Some "arn:aws:iam::123456789012:role/exec";
     process.ECS_TASK_ROLE_ARN := None;
     process.AI_ENGINE_URL := None |}.

(** An engine that answers with three pieces of code. *)
Definition engine_up : Axios :=
  fun _ _ _ =>
    Fulfilled {| GenerateData.success := true;
                 GenerateData.error := None;
                 GenerateData.initialization_code := Some "init()";
                 GenerateData.trigger_code := Some "trigger()";
                 GenerateData.execution_code := Some "execute()" |}.

(** An engine that cannot be reached. *)
Definition engine_down : Axios :=
  fun _ _ _ => Rejected (mkError "AxiosError" "connect ECONNREFUSED").

(** A datastore that stores every row as ["agent-1"] and takes every
    update. *)
Definition store_up : Supabase :=
  fun _ q =>
    match q return Outcome (Reply q) with
    | Insert _ => Fulfilled (inr {| AgentRow.id := "agent-1" |})
    | Update _ _ => Fulfilled None
    end.

(** A datastore that stores rows but refuses every update. *)
Definition store_frozen : Supabase :=
  fun _ q =>
    match q return Outcome (Reply q) with
    | Insert _ => Fulfilled (inr {| AgentRow.id := "agent-1" |})
    | Update _ _ =>
        Fulfilled (Some {| PostgrestError.message := "permission denied" |})
    end.

Definition noon : Clock := fun _ => "2025-01-01T12:00:00.000Z".

Definition request : DeployRequest.body :=
  {| DeployRequest.userId := Some "u1";
     DeployRequest.agentName := Some "momentum";
     DeployRequest.strategyDescription := Some "buy low, sell high";
     DeployRequest.hyperliquidAddress := Some "0xaddr";
     DeployRequest.apiKey := Some "0xkey";
     DeployRequest.isMainnet := Js.undefined;
     DeployRequest.maxPositionSize := Js.undefined;
     DeployRequest.maxLeverage := Js.undefined;
     DeployRequest.dailyLossLimit := Js.undefined;
     DeployRequest.useTestCode := Js.undefined |}.

(** The same request with every optional member given. *)
Definition request_with_options : DeployRequest.body :=
  {| DeployRequest.userId := Some "u1";
     DeployRequest.agentName := Some "momentum";
     DeployRequest.strategyDescription := Some "buy low, sell high";
     DeployRequest.hyperliquidAddress := Some "0xaddr";
     DeployRequest.apiKey := Some "0xkey";
     DeployRequest.isMainnet := Js.boolean false;
     DeployRequest.maxPositionSize := Js.number 250;
     DeployRequest.maxLeverage := Js.number 3;
     DeployRequest.dailyLossLimit := Js.number 50;
     DeployRequest.useTestCode := Js.boolean true |}.

(** A request whose [apiKey] is the empty string. *)
Definition request_without_key : DeployRequest.body :=
  {| DeployRequest.userId := Some "u1";
     DeployRequest.agentName := Some "momentum";
     DeployRequest.strategyDescription := Some "buy low, sell high";
     DeployRequest.hyperliquidAddress := Some "0xaddr";
     DeployRequest.apiKey := Some "";
     DeployRequest.isMainnet := Js.undefined;
     DeployRequest.maxPositionSize := Js.undefined;
     DeployRequest.maxLeverage := Js.undefined;
     DeployRequest.dailyLossLimit := Js.undefined;
     DeployRequest.useTestCode := Js.undefined |}.

(** The row the endpoint inserts for [request]. *)
Definition row : AgentInsert.t :=
  {| AgentInsert.user_id := "u1";
     AgentInsert.agent_name := "momentum";
     AgentInsert.strategy_description := "buy low, sell high";
     AgentInsert.initialization_code := Some "init()";
     AgentInsert.trigger_code := Some "trigger()";
     AgentInsert.execution_code := Some "execute()";
     AgentInsert.status := "deploying";
     AgentInsert.instruction := "RUN";
     AgentInsert.agent_deployed := false;
     AgentInsert.hyperliquid_address := "0xaddr";
     AgentInsert.deployment :=
       {| AgentInsert.ecr_repository := "hyperliquid-agent";
          AgentInsert.ecs_cluster := "hyperliquid-agents" |} |}.

End Caller.

(* ================================================================== *)
(** ** Strings and histories: basic facts *)
(* ================================================================== *)

Lemma string_app_assoc (a b c : string) : (a ++ b) ++ c = a ++ (b ++ c).
Proof.
  induction a as [|x a IH]; cbn; [reflexivity | now rewrite IH].
Qed.

Lemma prefix_app (p s : string) : String.prefix p (p ++ s) = true.
Proof.
  induction p as [|x p IH]; cbn.
  - now destruct s.
  - destruct (ascii_dec x x) as [_|ne]; [exact IH | now destruct ne].
Qed.

Lemma prefix_inv (p s : string) :
  String.prefix p s = true -> exists rest, s = p ++ rest.
Proof.
  revert s; induction p as [|x p IH]; intros s H.
  - now exists s.
  - destruct s as [|y s]; cbn in H; [discriminate|].
    destruct (ascii_dec x y) as [->|]; [|discriminate].
    destruct (IH _ H) as [rest ->]. now exists rest.
Qed.

(** [includes] decides [Contains]. *)
Lemma includes_Contains (s sub : string) :
  Js.includes s sub = true <-> Js.Contains s sub.
Proof.
  split.
  - induction s as [|c s IH]; cbn [Js.includes];
      destruct (String.prefix sub _) eqn:P; intros H; try discriminate.
    + apply prefix_inv in P as [rest E]. now exists "", rest.
    + apply prefix_inv in P as [rest E]. now exists "", rest.
    + destruct (IH H) as (pre & post & ->). now exists (String c pre), post.
  - intros (pre & post & ->).
    induction pre as [|c pre IH]; cbn [String.append].
    + destruct (sub ++ post) eqn:E; cbn [Js.includes];
        rewrite <- E, prefix_app; reflexivity.
    + cbn [Js.includes]. rewrite IH. now destruct (String.prefix _ _).
Qed.

Lemma Contains_app_l (a b sub : string) :
  Js.Contains b sub -> Js.Contains (a ++ b) sub.
Proof.
  intros (pre & post & ->). exists (a ++ pre), post.
  now rewrite string_app_assoc.
Qed.

Lemma Contains_app_r (a b sub : string) :
  Js.Contains a sub -> Js.Contains (a ++ b) sub.
Proof.
  intros (pre & post & ->). exists pre, (post ++ b).
  now rewrite !string_app_assoc.
Qed.

Lemma Contains_refl (s : string) : Js.Contains s s.
Proof.
  exists "", "". cbn. induction s as [|c s IH]; cbn; [reflexivity|].
  now rewrite <- IH.
Qed.

Lemma encodeURIComponent_app (a b : string) :
  Js.encodeURIComponent (a ++ b)
  = Js.encodeURIComponent a ++ Js.encodeURIComponent b.
Proof.
  induction a as [|c a IH]; cbn [String.append Js.encodeURIComponent].
  - reflexivity.
  - now rewrite IH, string_app_assoc.
Qed.

Lemma commands_app (h1 h2 : History) :
  commands (h1 ++ h2)%list = (commands h1 ++ commands h2)%list.
Proof.
  induction h1 as [|ev h1 IH]; cbn; [reflexivity|].
  destruct ev; cbn; now rewrite IH.
Qed.

Lemma split_nil {A : Type} (pre : list A) (x : A) (post : list A) :
  [] = (pre ++ x :: post)%list -> False.
Proof. destruct pre; discriminate. Qed.

Lemma split_cons {A : Type} (e : A) (l pre : list A) (x : A) (post : list A) :
  e :: l = (pre ++ x :: post)%list ->
  (pre = [] /\ e = x /\ l = post) \/
  (exists pre', pre = e :: pre' /\ l = (pre' ++ x :: post)%list).
Proof.
  destruct pre as [|a pre]; cbn [app]; intros H; injection H as -> ->.
  - left; auto.
  - right; eauto.
Qed.

(** A service command found in [t1 ++ t2], where [t1] holds setup events
    only, lies in [t2]. *)
Lemma split_after_setup (t1 t2 pre post : History) (x : Event) :
  Forall setup_event t1 -> ~ setup_event x ->
  (t1 ++ t2 = pre ++ x :: post)%list ->
  exists pre2, pre = (t1 ++ pre2)%list /\ t2 = (pre2 ++ x :: post)%list.
Proof.
  intros F nx. revert pre.
  induction F as [|ev t1 Hev F IH]; cbn [app]; intros pre E.
  - now exists pre.
  - destruct (split_cons _ _ _ _ _ E) as [(-> & -> & _) | (pre' & -> & E')].
    + contradiction.
    + destruct (IH _ E') as (pre2 & -> & ->). now exists pre2.
Qed.

Lemma no_split_in_setup (t1 pre post : History) (x : Event) :
  Forall setup_event t1 -> ~ setup_event x ->
  t1 = (pre ++ x :: post)%list -> False.
Proof.
  intros F nx ->. apply Forall_app in F as [_ F].
  inversion F; subst; contradiction.
Qed.

(* ================================================================== *)
(** ** Symbolic execution *)
(* ================================================================== *)

(** Case analysis on the innermost scrutinee the goal is stuck on. *)
Ltac break_match :=
  match goal with
  | |- context [match ?x with _ => _ end] =>
      lazymatch x with
      | context [match _ with _ => _ end] => fail
      | _ => destruct x eqn:?
      end
  end.

Ltac break_all := repeat (break_match; cbv beta iota zeta delta [fst snd]).

(** Runs [ensureLogGroup] on a symbolic platform. *)
Ltac run_ensureLogGroup :=
  cbv beta iota zeta delta
    [ensureLogGroup bind try_catch send emit ret throw fst snd];
  break_all.

(** Runs [reconcileService] on a symbolic platform. *)
Ltac run_reconcile :=
  cbv beta iota zeta delta
    [reconcileService createNewService bind try_catch send emit ret throw
     new_Error fst snd];
  repeat match goal with
         | |- context [if ASSIGN_PUBLIC_IP ?e then ?a else ?b] =>
             generalize (if ASSIGN_PUBLIC_IP e then a else b); intro
         end;
  break_all.

(** Writes every history as [h ++ [ev1; ...; evn]]. *)
Ltac norm_history :=
  repeat rewrite <- app_assoc in *; cbn [app] in *.

(** All the ways a concrete list can be [pre ++ x :: post]. *)
Ltac splits H :=
  lazymatch type of H with
  | [] = _ => destruct (split_nil _ _ _ H)
  | _ :: _ = _ =>
      let pre' := fresh "pre" in
      let H' := fresh H in
      destruct (split_cons _ _ _ _ _ H) as [(-> & ? & ?) | (pre' & -> & H')];
      clear H; [ | splits H' ]
  end.

(** Finds the event a hypothesis [t = pre ++ ev :: post] speaks of in a
    concrete [t]. *)
Ltac located :=
  match goal with H : _ = (_ ++ _ :: _)%list |- _ => splits H end;
  try discriminate;
  repeat match goal with
         | H : Sent _ = Sent _ |- _ => injection H as H; try subst
         end;
  try discriminate;
  rewrite ?app_nil_r in *.

(** Takes apart equations between concrete lists of events, without
    computing inside them. *)
Ltac unstack :=
  repeat match goal with
         | H : [] = _ :: _ |- _ => discriminate H
         | H : _ :: _ = [] |- _ => discriminate H
         | H : ?a :: ?l = ?b :: ?m |- _ =>
             assert (a = b) by congruence;
             assert (l = m) by congruence; clear H
         | H : Sent ?a = Sent ?b |- _ =>
             assert (a = b) by congruence; clear H
         | H : ConsoleWarn ?a = ConsoleWarn ?b |- _ =>
             assert (a = b) by congruence; clear H
         | H : ConsoleLog ?a = ConsoleLog ?b |- _ =>
             assert (a = b) by congruence; clear H
         | H : CreateServiceCommand ?a = CreateServiceCommand ?b |- _ =>
             assert (a = b) by congruence; clear H
         | H : UpdateServiceCommand ?a = UpdateServiceCommand ?b |- _ =>
             assert (a = b) by congruence; clear H
         | H : DeleteServiceCommand ?a = DeleteServiceCommand ?b |- _ =>
             assert (a = b) by congruence; clear H
         | H : ?a = ?b :> Event |- _ => discriminate H
         | H : ?a = ?b :> Command |- _ => discriminate H
         end;
  subst.

(** Two answers of the platform to the same command at the same history. *)
Ltac same_answer :=
  match goal with
  | H1 : ?aws ?hh ?c = _, H2 : ?aws ?hh ?c = _ |- _ =>
      rewrite H1 in H2; first [discriminate H2 | injection H2 as H2; subst]
  end.

(* ================================================================== *)
(** ** Code generation *)
(* ================================================================== *)

(** C10. The code-generation step does not depend on the caller's
    [useTestCode] flag: two calls of [generateAgentCode] that differ only in
    the flag behave identically (same outcome, same history), and each of
    them posts the strategy description to the AI engine exactly once. *)
Theorem generateAgentCode_ignores_useTestCode
    (env : process.env) (axios : Axios) (strategyDescription : string)
    (flag1 flag2 : Js.value) (h : History) :
  generateAgentCode env axios strategyDescription flag1 h
  = generateAgentCode env axios strategyDescription flag2 h
  /\ snd (generateAgentCode env axios strategyDescription flag1 h)
     = (h ++ [ConsoleLog "🤖 Calling AI engine...";
              Posted (AI_ENGINE_URL env ++ "/generate")
                {| strategy_description := strategyDescription |}])%list.
Proof.
  split; [reflexivity|].
  cbv beta iota zeta delta [generateAgentCode bind post emit ret throw snd].
  destruct (axios _ _ _) as [data|e]; cbn [snd].
  - destruct (negb (GenerateData.success data)); cbn [snd];
      now rewrite <- app_assoc.
  - now rewrite <- app_assoc.
Qed.

(* ================================================================== *)
(** ** Log-channel provisioning *)
(* ================================================================== *)

(** What [ensureLogGroup] adds to the history are setup events, and the
    handle it fulfils with is the derived name. *)
Lemma ensureLogGroup_run (aws : Aws) (agentId : string) (h : History) :
  exists t,
    snd (ensureLogGroup aws agentId h) = (h ++ t)%list
    /\ Forall setup_event t
    /\ Forall (fun c =>
                 match c with
                 | CreateLogGroupCommand i =>
                     CreateLogGroup.logGroupName i
                     = "/ecs/hyperliquid-agents/" ++ agentId
                 | PutRetentionPolicyCommand i =>
                     PutRetentionPolicy.logGroupName i
                     = "/ecs/hyperliquid-agents/" ++ agentId
                 | _ => False
                 end) (commands t)
    /\ forall lg, fst (ensureLogGroup aws agentId h) = Fulfilled lg ->
                  lg = "/ecs/hyperliquid-agents/" ++ agentId.
Proof.
  run_ensureLogGroup; norm_history;
    (eexists; split; [reflexivity|]);
    (split; [repeat constructor|]);
    (split; [repeat constructor|]);
    intros lg E; now inversion E.
Qed.

(** C7. Log-channel provisioning: (1) when creation succeeds or is rejected
    as already existing, the call returns the channel handle whatever the
    retention step does; (2) a rejected retention step is reported on the
    console and the handle is still returned; (3) any other creation error
    is rethrown unchanged and nothing further is attempted; (4) so a second
    call, whose creation the platform rejects as already existing, does not
    fail. *)
Theorem ensureLogGroup_idempotent_best_effort
    (aws : Aws) (agentId : string) (h : History) :
  let logGroupName := "/ecs/hyperliquid-agents/" ++ agentId in
  let create :=
    CreateLogGroupCommand {| CreateLogGroup.logGroupName := logGroupName |} in
  let retention :=
    PutRetentionPolicyCommand
      {| PutRetentionPolicy.logGroupName := logGroupName;
         PutRetentionPolicy.retentionInDays := 30 |} in
  let already_exists (o : Outcome unit) :=
    exists e, o = Rejected e /\ name e = "ResourceAlreadyExistsException" in
  (aws h create = Fulfilled tt \/ already_exists (aws h create) ->
   fst (ensureLogGroup aws agentId h) = Fulfilled logGroupName)
  /\ (forall e,
        aws h create = Fulfilled tt \/ already_exists (aws h create) ->
        aws (h ++ [Sent create])%list retention = Rejected e ->
        ensureLogGroup aws agentId h
        = (Fulfilled logGroupName,
           (h ++ [Sent create; Sent retention;
                  ConsoleWarn ("Retention policy failed: " ++ message e)])%list))
  /\ (forall e,
        aws h create = Rejected e ->
        name e <> "ResourceAlreadyExistsException" ->
        ensureLogGroup aws agentId h = (Rejected e, (h ++ [Sent create])%list))
  /\ (let h1 := snd (ensureLogGroup aws agentId h) in
      already_exists (aws h1 create) ->
      fst (ensureLogGroup aws agentId h1) = Fulfilled logGroupName).
Proof.
  intros logGroupName create retention already_exists.
  assert (ok : forall h0,
             aws h0 create = Fulfilled tt \/ already_exists (aws h0 create) ->
             forall o, aws (h0 ++ [Sent create])%list retention = o ->
             ensureLogGroup aws agentId h0
             = (Fulfilled logGroupName,
                match o with
                | Fulfilled _ => (h0 ++ [Sent create; Sent retention])%list
                | Rejected e =>
                    (h0 ++ [Sent create; Sent retention;
                            ConsoleWarn ("Retention policy failed: "
                                           ++ message e)])%list
                end)).
  { intros h0 Hc o Ho. subst create retention logGroupName.
    cbv beta iota zeta delta
      [ensureLogGroup bind try_catch send emit ret throw fst snd].
    destruct Hc as [-> | (e & -> & Hn)].
    - rewrite Ho. destruct o; norm_history; reflexivity.
    - apply String.eqb_eq in Hn. rewrite Hn. cbn [negb].
      rewrite Ho. destruct o; norm_history; reflexivity. }
  repeat split.
  - intros Hc. now rewrite (ok h Hc _ eq_refl).
  - intros e Hc Hr. now rewrite (ok h Hc _ Hr).
  - intros e Hc Hn. subst create logGroupName.
    cbv beta iota zeta delta
      [ensureLogGroup bind try_catch send emit ret throw fst snd].
    rewrite Hc. apply String.eqb_neq in Hn. now rewrite Hn.
  - intros h1 Hc. now rewrite (ok h1 (or_intror Hc) _ eq_refl).
Qed.

(* ================================================================== *)
(** ** The stages of a deployment *)
(* ================================================================== *)

(** C4. With an empty subnet list, an empty security-group list or no
    execution role, [deployToFargate] rejects with the configuration error
    of the first missing variable, and the only thing it has done is print
    its first console line: no command is sent to the platform. *)
Theorem deployToFargate_fails_fast
    (env : process.env) (aws : Aws) (agentId : string)
    (credentials : Credentials) (h : History) :
  SUBNET_IDS env = [] \/ SECURITY_GROUP_IDS env = []
  \/ Js.falsy (ECS_EXECUTION_ROLE_ARN env) = true ->
  exists variable,
    In variable ["SUBNET_IDS"; "SECURITY_GROUP_IDS"; "ECS_EXECUTION_ROLE_ARN"]
    /\ deployToFargate env aws agentId credentials h
       = (Rejected (new_Error
                      (variable ++ " environment variable is required")),
          (h ++ [banner agentId])%list)
    /\ commands (snd (deployToFargate env aws agentId credentials h))
       = commands h.
Proof.
  intros H.
  assert (quiet : commands (h ++ [banner agentId])%list = commands h).
  { rewrite commands_app. cbn. apply app_nil_r. }
  cbv beta iota zeta delta [deployToFargate bind emit throw fst snd].
  destruct (SUBNET_IDS env) as [|s ss] eqn:Es; cbn [length Nat.eqb].
  { exists "SUBNET_IDS". cbn; auto. }
  destruct (SECURITY_GROUP_IDS env) as [|g gs] eqn:Eg; cbn [length Nat.eqb].
  { exists "SECURITY_GROUP_IDS". cbn; auto. }
  destruct H as [H | [H | H]]; try discriminate.
  rewrite H. exists "ECS_EXECUTION_ROLE_ARN". cbn; auto 6.
Qed.

(** [deployToFargate] either rejects during setup, or hands over to the
    reconciler with the derived service name and the registered task
    definition, and wraps what the reconciler returns. *)
Lemma deployToFargate_stages
    (env : process.env) (aws : Aws) (agentId : string)
    (credentials : Credentials) (h : History) :
  (exists e t1,
      deployToFargate env aws agentId credentials h
      = (Rejected e, (h ++ t1)%list)
      /\ Forall setup_event t1)
  \/ (exists t1 taskDefArn,
        Forall setup_event t1
        /\ deployToFargate env aws agentId credentials h
           = let r := reconcileService env aws ("agent-svc-" ++ agentId)
                        taskDefArn (h ++ t1)%list in
             (match fst r with
              | Fulfilled serviceArn =>
                  Fulfilled (deployment_of env agentId taskDefArn serviceArn)
              | Rejected e => Rejected e
              end, snd r)).
Proof.
  destruct (ensureLogGroup_run aws agentId (h ++ [banner agentId])%list)
    as (tl & Hl & Fl & _ & Hlg).
  assert (Fb : Forall setup_event [banner agentId]) by (repeat constructor).
  cbv beta iota zeta delta [deployToFargate bind emit throw ret send fst snd].
  fold (banner agentId).
  destruct (length (SUBNET_IDS env) =? 0)%nat; [left; eauto|].
  destruct (length (SECURITY_GROUP_IDS env) =? 0)%nat; [left; eauto|].
  destruct (Js.falsy (ECS_EXECUTION_ROLE_ARN env)); [left; eauto|].
  destruct (ensureLogGroup aws agentId (h ++ [banner agentId])%list)
    as [[lg|e] h1]; cbn [fst snd] in Hl, Hlg; subst h1.
  - rewrite (Hlg lg eq_refl). clear Hlg lg.
    match goal with
    | |- context [aws ?hh (RegisterTaskDefinitionCommand ?i)] =>
        set (register := RegisterTaskDefinitionCommand i);
        assert (Fr : Forall setup_event
                       ([banner agentId] ++ tl ++ [Sent register])%list)
          by (repeat (apply Forall_app; split); auto; repeat constructor);
        destruct (aws hh register) as [resp|e]
    end.
    + right. exists ([banner agentId] ++ tl ++ [Sent register])%list.
      exists (RegisterTaskDefinition.taskDefinitionArn
                (RegisterTaskDefinition.taskDefinition resp)).
      split; [exact Fr|]. rewrite <- !app_assoc.
      cbv beta iota zeta delta [fst snd].
      now destruct (reconcileService _ _ _ _ _) as [[arn|e] h2].
    + left. exists e, ([banner agentId] ++ tl ++ [Sent register])%list.
      split; [|exact Fr]. now rewrite <- !app_assoc.
  - left. exists e, ([banner agentId] ++ tl)%list. split.
    + now rewrite <- app_assoc.
    + apply Forall_app; auto.
Qed.

(* ================================================================== *)
(** ** The reconciler: update first, delete as a last resort *)
(* ================================================================== *)

Lemma reconcileService_update_first
    (env : process.env) (aws : Aws) (serviceName taskDefArn : string)
    (h : History) :
  exists t,
    snd (reconcileService env aws serviceName taskDefArn h) = (h ++ t)%list
    /\ update_on_found aws h t
    /\ delete_only_after_rejected_update aws h t.
Proof.
  run_reconcile; norm_history; (eexists; split; [reflexivity|]); split;
    unfold update_on_found, delete_only_after_rejected_update; intros;
    located;
    try (same_answer; congruence);
    try (do 2 eexists; split; reflexivity).
  all: match goal with
       | |- exists pre' u w e, [?d; _; _] = _ /\ _ => exists [d]
       end; do 3 eexists; (split; [reflexivity | eassumption]).
Qed.

Lemma update_on_found_after_setup (aws : Aws) (h t1 t2 : History) :
  Forall setup_event t1 ->
  update_on_found aws (h ++ t1)%list t2 ->
  update_on_found aws h (t1 ++ t2)%list.
Proof.
  intros F R pre d post out svc rest E A S.
  destruct (split_after_setup _ _ _ _ (Sent (DescribeServicesCommand d)) F
              (fun f => f) E) as (pre2 & -> & E2).
  rewrite app_assoc in A. exact (R _ _ _ _ _ _ E2 A S).
Qed.

Lemma delete_only_after_setup (aws : Aws) (h t1 t2 : History) :
  Forall setup_event t1 ->
  delete_only_after_rejected_update aws (h ++ t1)%list t2 ->
  delete_only_after_rejected_update aws h (t1 ++ t2)%list.
Proof.
  intros F R pre d post E.
  destruct (split_after_setup _ _ _ _ (Sent (DeleteServiceCommand d)) F
              (fun f => f) E) as (pre2 & -> & E2).
  destruct (R _ _ _ E2) as (pre' & u & w & e & -> & A).
  exists (t1 ++ pre')%list, u, w, e. split.
  - now rewrite app_assoc.
  - now rewrite app_assoc.
Qed.

(** C5. Whenever the describe call finds an existing service, the next thing
    [deployToFargate] does is an update with [forceNewDeployment: true]; and
    a delete is only ever sent right after such an update was rejected. *)
Theorem deployToFargate_update_first
    (env : process.env) (aws : Aws) (agentId : string)
    (credentials : Credentials) (h : History) :
  exists t,
    snd (deployToFargate env aws agentId credentials h) = (h ++ t)%list
    /\ update_on_found aws h t
    /\ delete_only_after_rejected_update aws h t.
Proof.
  destruct (deployToFargate_stages env aws agentId credentials h)
    as [(e & t1 & E & F) | (t1 & td & F & E)]; rewrite E; cbn [snd].
  - exists t1. split; [reflexivity|]. split.
    + intros pre d post out svc rest Et _ _.
      destruct (no_split_in_setup _ _ _ (Sent (DescribeServicesCommand d)) F
                  (fun f => f) Et).
    + intros pre d post Et.
      destruct (no_split_in_setup _ _ _ (Sent (DeleteServiceCommand d)) F
                  (fun f => f) Et).
  - destruct (reconcileService_update_first env aws ("agent-svc-" ++ agentId)
                td (h ++ t1)%list) as (t2 & E2 & Ra & Rb).
    exists (t1 ++ t2)%list. rewrite E2, app_assoc. split; [reflexivity|].
    split.
    + now apply update_on_found_after_setup.
    + now apply delete_only_after_setup.
Qed.

(* ================================================================== *)
(** ** What every command of a run looks like *)
(* ================================================================== *)

Section SendsOnly.

Variable P : Command -> Prop.

Lemma sends_only_ret {A : Type} (a : A) : sends_only P (ret a).
Proof. intros h. exists []. cbn. now rewrite app_nil_r. Qed.

Lemma sends_only_throw {A : Type} (e : JsError) : sends_only P (@throw A e).
Proof. intros h. exists []. cbn. now rewrite app_nil_r. Qed.

Lemma sends_only_emit (ev : Event) :
  commands [ev] = [] -> sends_only P (emit ev).
Proof. intros E h. exists [ev]. rewrite E. now split. Qed.

Lemma sends_only_send (aws : Aws) (c : Command) :
  P c -> sends_only P (send aws c).
Proof. intros Pc h. exists [Sent c]. split; [reflexivity|]. now constructor. Qed.

Lemma sends_only_bind {A B : Type} (m : M A) (k : A -> M B) :
  sends_only P m -> (forall a, sends_only P (k a)) -> sends_only P (bind m k).
Proof.
  intros Hm Hk h. destruct (Hm h) as (t1 & E1 & F1). unfold bind.
  destruct (m h) as [[a|e] h1]; cbn [snd] in *; subst h1.
  - destruct (Hk a (h ++ t1)%list) as (t2 & E2 & F2).
    exists (t1 ++ t2)%list. rewrite E2, app_assoc, commands_app.
    split; [reflexivity|]. now apply Forall_app.
  - now exists t1.
Qed.

Lemma sends_only_try_catch {A : Type} (m : M A) (handler : JsError -> M A) :
  sends_only P m -> (forall e, sends_only P (handler e)) ->
  sends_only P (try_catch m handler).
Proof.
  intros Hm Hk h. destruct (Hm h) as (t1 & E1 & F1). unfold try_catch.
  destruct (m h) as [[a|e] h1]; cbn [snd] in *; subst h1.
  - now exists t1.
  - destruct (Hk e (h ++ t1)%list) as (t2 & E2 & F2).
    exists (t1 ++ t2)%list. rewrite E2, app_assoc, commands_app.
    split; [reflexivity|]. now apply Forall_app.
Qed.

End SendsOnly.

(** Walks through the code of the deployer, leaving one goal [P c] for each
    command [c] it sends. *)
Ltac walk :=
  cbv beta zeta delta
    [deployToFargate reconcileService createNewService ensureLogGroup];
  repeat first
    [ apply sends_only_bind; [|intro]
    | apply sends_only_try_catch; [|intro]
    | apply sends_only_ret
    | apply sends_only_throw
    | apply sends_only_emit; reflexivity
    | apply sends_only_send
    | match goal with
      | |- sends_only _ (if ?b then _ else _) => destruct b
      | |- sends_only _ (match ?x with _ => _ end) => destruct x
      end ].

(** C6. Every create-service and every update-service command that
    [deployToFargate] sends asks for [desiredCount: 1] and the same rollout,
    [maximumPercent: 200] and [minimumHealthyPercent: 100]. *)
Theorem deployToFargate_one_instance_rollout
    (env : process.env) (aws : Aws) (agentId : string)
    (credentials : Credentials) (h : History) :
  exists t,
    snd (deployToFargate env aws agentId credentials h) = (h ++ t)%list
    /\ Forall one_instance_rollout (commands t).
Proof.
  revert h. change (sends_only one_instance_rollout
                      (deployToFargate env aws agentId credentials)).
  walk; cbn; auto.
Qed.

(* ================================================================== *)
(** ** Resource names and the container image *)
(* ================================================================== *)

Lemma deployToFargate_names
    (env : process.env) (aws : Aws) (agentId : string)
    (credentials : Credentials) :
  sends_only (derived_names agentId)
    (deployToFargate env aws agentId credentials).
Proof. walk; reflexivity. Qed.

Lemma deployToFargate_images
    (env : process.env) (aws : Aws) (agentId : string)
    (credentials : Credentials) :
  sends_only (image_from_configuration env)
    (deployToFargate env aws agentId credentials).
Proof. walk; cbn; auto. Qed.

Lemma registered_images_configured (env : process.env) (t : History) :
  Forall (image_from_configuration env) (commands t) ->
  Forall (eq (configured_image env)) (registered_images t).
Proof.
  unfold registered_images.
  induction (commands t) as [|c cs IH]; intros F; cbn [flat_map].
  - constructor.
  - inversion F as [|? ? Pc F']; subst. apply Forall_app. split; [|auto].
    destruct c; cbn in *; try constructor.
    rewrite Pc. now repeat constructor.
Qed.

Lemma deployToFargate_result
    (env : process.env) (aws : Aws) (agentId : string)
    (credentials : Credentials) (h : History) (r : Deployment.t) :
  fst (deployToFargate env aws agentId credentials h) = Fulfilled r ->
  exists taskDefArn serviceArn,
    r = deployment_of env agentId taskDefArn serviceArn.
Proof.
  destruct (deployToFargate_stages env aws agentId credentials h)
    as [(e & t1 & E & F) | (t1 & td & F & E)]; rewrite E; cbn [fst].
  - discriminate.
  - destruct (fst (reconcileService _ _ _ _ _)) as [arn|e]; intros [= <-].
    + now exists td, arn.
Qed.

(** C3, as the code has it. For every agent identity [x], the commands
    [deployToFargate] sends name the task family ["hyperliquid-agent-" ++ x],
    the service ["agent-svc-" ++ x] and the log group
    ["/ecs/hyperliquid-agents/" ++ x]; the deployment it returns carries that
    log group, and its log URL ends with the log group's name as
    [encodeURIComponent] writes it, ["%2Fecs%2Fhyperliquid-agents%2F"]
    followed by the encoded [x]. *)
Theorem deployToFargate_derived_names
    (env : process.env) (aws : Aws) (x : string)
    (credentials : Credentials) (h : History) :
  (exists t,
      snd (deployToFargate env aws x credentials h) = (h ++ t)%list
      /\ Forall (derived_names x) (commands t))
  /\ (forall r,
        fst (deployToFargate env aws x credentials h) = Fulfilled r ->
        Deployment.logGroupName r = "/ecs/hyperliquid-agents/" ++ x
        /\ Deployment.logUrl r
           = "https://" ++ AWS_REGION env
             ++ ".console.aws.amazon.com/cloudwatch/home?region="
             ++ AWS_REGION env ++ "#logsV2:log-groups/log-group/"
             ++ "%2Fecs%2Fhyperliquid-agents%2F" ++ Js.encodeURIComponent x
        /\ Js.Contains (Deployment.logUrl r)
             ("%2Fecs%2Fhyperliquid-agents%2F" ++ Js.encodeURIComponent x)).
Proof.
  split; [apply deployToFargate_names|].
  intros r Hr. destruct (deployToFargate_result _ _ _ _ _ _ Hr) as (td & arn & ->).
  cbn [deployment_of Deployment.logGroupName Deployment.logUrl].
  rewrite encodeURIComponent_app.
  change (Js.encodeURIComponent "/ecs/hyperliquid-agents/")
    with "%2Fecs%2Fhyperliquid-agents%2F".
  repeat split.
  do 5 apply Contains_app_l. apply Contains_refl.
Qed.

(** C8, as the code has it. [deployToFargate] has no image parameter: every
    task definition it registers, for whatever agent, credentials and
    platform, declares the one image the process configuration fixes,
    [ECR_REGISTRY/ECR_REPOSITORY:latest]; so two deployments of one process
    register the same image. *)
Theorem deployToFargate_image_from_configuration
    (env : process.env)
    (aws1 aws2 : Aws) (agentId1 agentId2 : string)
    (credentials1 credentials2 : Credentials) (h1 h2 : History) :
  exists t1 t2,
    snd (deployToFargate env aws1 agentId1 credentials1 h1) = (h1 ++ t1)%list
    /\ snd (deployToFargate env aws2 agentId2 credentials2 h2)
       = (h2 ++ t2)%list
    /\ Forall (eq (configured_image env))
         (registered_images t1 ++ registered_images t2)%list.
Proof.
  destruct (deployToFargate_images env aws1 agentId1 credentials1 h1)
    as (t1 & E1 & F1).
  destruct (deployToFargate_images env aws2 agentId2 credentials2 h2)
    as (t2 & E2 & F2).
  exists t1, t2. repeat split; try assumption.
  apply Forall_app; split; now apply registered_images_configured.
Qed.

(* ================================================================== *)
(** ** The reconciler: an absent service is created *)
(* ================================================================== *)

Lemma reconcileService_creates_when_absent
    (env : process.env) (aws : Aws) (serviceName taskDefArn : string)
    (h : History) :
  exists t,
    snd (reconcileService env aws serviceName taskDefArn h) = (h ++ t)%list
    /\ create_on_absent (fun arn => arn) aws serviceName h t
         (fst (reconcileService env aws serviceName taskDefArn h)).
Proof.
  run_reconcile; norm_history; (eexists; split; [reflexivity|]);
    unfold create_on_absent; intros pre d post Et Ha;
    located;
    match goal with
    | E : ?aws ?hh ?c = _, Ha : absent (?aws ?hh ?c) |- _ =>
        rewrite E in Ha; cbn [absent] in Ha
    end;
    try (destruct Ha; congruence);
    try (unfold not_found_error in Ha; cbn [name message] in *; congruence).
  all: do 2 eexists; split; [reflexivity|]; split; [reflexivity|];
    intros out Ho; cbn [app] in Ho; same_answer;
    (split; [reflexivity|]); eexists; split; reflexivity.
Qed.

Lemma create_on_absent_after_setup (env : process.env) (aws : Aws)
    (agentId taskDefArn : string) (h t1 t2 : History)
    (result : Outcome string) :
  Forall setup_event t1 ->
  create_on_absent (fun arn => arn) aws ("agent-svc-" ++ agentId)
    (h ++ t1)%list t2 result ->
  create_on_absent Deployment.serviceArn aws ("agent-svc-" ++ agentId)
    h (t1 ++ t2)%list
    match result with
    | Fulfilled serviceArn =>
        Fulfilled (deployment_of env agentId taskDefArn serviceArn)
    | Rejected e => Rejected e
    end.
Proof.
  intros F R pre d post E Ha.
  destruct (split_after_setup _ _ _ _ (Sent (DescribeServicesCommand d)) F
              (fun f => f) E) as (pre2 & -> & E2).
  rewrite app_assoc in Ha.
  destruct (R _ _ _ E2 Ha) as (c & post' & -> & Hn & Hc).
  exists c, post'. split; [reflexivity|]. split; [exact Hn|].
  intros out Ho. rewrite <- !app_assoc in Ho. rewrite <- app_assoc in Hc.
  destruct (Hc _ Ho) as (Hq & r & -> & Hr). split; [exact Hq|].
  eexists; split; [reflexivity | exact Hr].
Qed.

Lemma reconcileService_describes_first
    (env : process.env) (aws : Aws) (serviceName taskDefArn : string)
    (h : History) :
  exists t,
    snd (reconcileService env aws serviceName taskDefArn h)
    = (h ++ Sent (DescribeServicesCommand
                    {| DescribeServices.cluster := ECS_CLUSTER env;
                       DescribeServices.services_ := [serviceName] |})
         :: t)%list.
Proof.
  run_reconcile; norm_history; eexists; reflexivity.
Qed.

(** X21. Every run of [deployToFargate] that gets past the setup asks the
    platform about the agent's service first, and either signal of absence,
    a describe result with no service in it or a describe rejected as not
    found, leads to the same next step: one create for the agent's service
    is sent at once, and when the platform fulfils it nothing more is sent
    and the deployment is returned with the created service's handle. *)
Theorem deployToFargate_creates_when_absent
    (env : process.env) (aws : Aws) (agentId : string)
    (credentials : Credentials) (h : History) :
  exists t,
    snd (deployToFargate env aws agentId credentials h) = (h ++ t)%list
    /\ describes_after_setup env ("agent-svc-" ++ agentId) t
         (fst (deployToFargate env aws agentId credentials h))
    /\ create_on_absent Deployment.serviceArn aws ("agent-svc-" ++ agentId)
         h t (fst (deployToFargate env aws agentId credentials h)).
Proof.
  destruct (deployToFargate_stages env aws agentId credentials h)
    as [(e & t1 & E & F) | (t1 & td & F & E)]; rewrite E; cbn [fst snd].
  - exists t1. split; [reflexivity|]. split.
    + left. split; [exact F | now exists e].
    + intros pre d post Et _.
      destruct (no_split_in_setup _ _ _ (Sent (DescribeServicesCommand d)) F
                  (fun f => f) Et).
  - destruct (reconcileService_creates_when_absent env aws
                ("agent-svc-" ++ agentId) td (h ++ t1)%list) as (t2 & E2 & R).
    destruct (reconcileService_describes_first env aws
                ("agent-svc-" ++ agentId) td (h ++ t1)%list) as (t2' & E2').
    exists (t1 ++ t2)%list. rewrite E2, app_assoc. split; [reflexivity|].
    split.
    + right. exists t1, t2'. split; [|exact F].
      rewrite E2' in E2. apply app_inv_head in E2. now subst t2.
    + now apply create_on_absent_after_setup.
Qed.

(** X22. What the two signals of absence do not share: the handling of a
    rejected create.  After a describe rejected as not found the run ends
    with "Failed to create service: " and the reason.  After a describe
    fulfilled with no service the rejection lands in the handler of the
    describe call: a reason it does not read as not-found ends the run with
    "Failed to check service status: " and the reason, and a reason it
    reads as not-found has the same create sent a second time. *)
Theorem reconcileService_create_failure
    (env : process.env) (aws : Aws) (serviceName taskDefArn : string)
    (h : History) :
  exists t,
    snd (reconcileService env aws serviceName taskDefArn h) = (h ++ t)%list
    /\ create_failure_on_absent aws h t
         (fst (reconcileService env aws serviceName taskDefArn h)).
Proof.
  run_reconcile; norm_history; (eexists; split; [reflexivity|]);
    unfold create_failure_on_absent; intros ? ? ? ? ? Et; cbv zeta;
    intros Hc;
    located; unstack; cbn [app] in *;
    repeat same_answer; try discriminate;
    match goal with
    | E : aws h (DescribeServicesCommand _) = _ |- _ => rewrite E
    end;
    unfold not_found_error in *; cbn [absent name message new_Error] in *;
    repeat match goal with
           | E : (_ || _)%bool = _ |- _ => rewrite E in *
           end.
  all: try (split; [solve [auto | unfold not_found_error; assumption]|]).
  all: try (split; reflexivity).
  all: eexists; split; [reflexivity|]; split; [reflexivity|];
    rewrite <- ?app_assoc; cbn [app];
    match goal with
    | E : ?f ?hh (CreateServiceCommand ?c) = _
      |- context [?f ?hh (CreateServiceCommand ?c)] => rewrite E
    end;
    first [reflexivity | split; reflexivity].
Qed.

(* ================================================================== *)
(** ** The reconciler: the recovery path and its errors *)
(* ================================================================== *)

(** X1. The recovery path of the reconciler: after a rejected update it sends
    a forced delete of the service and, once that is fulfilled, waits
    2000 ms and creates the service anew. *)
Theorem reconcileService_recovery_sequence
    (env : process.env) (aws : Aws) (serviceName taskDefArn : string)
    (h : History) :
  exists t,
    snd (reconcileService env aws serviceName taskDefArn h) = (h ++ t)%list
    /\ recreate_after_rejected_update aws h t.
Proof.
  run_reconcile; norm_history; (eexists; split; [reflexivity|]);
    unfold recreate_after_rejected_update; intros ? ? ? ? Et Hu;
    located; try (same_answer; fail).
  all: do 3 eexists; split; [reflexivity|]; split; [reflexivity|];
    split; [reflexivity|]; intros ? Ho; cbn [app] in Ho;
    try (same_answer; fail);
    do 3 eexists; split; reflexivity.
Qed.

(** The error the recovery path reports contains both reasons. *)
Lemma recovery_failure_text_contains (eu er : JsError) :
  Js.Contains ("Failed to check service status: "
                 ++ recovery_failure_text eu er) (message eu)
  /\ Js.Contains ("Failed to check service status: "
                    ++ recovery_failure_text eu er) (message er).
Proof.
  unfold recovery_failure_text. split.
  - do 2 apply Contains_app_l. apply Contains_app_r, Contains_refl.
  - do 4 apply Contains_app_l. apply Contains_refl.
Qed.

(** X2. When the recovery itself is rejected, by the delete or by the create
    that follows it, and the text combining the update's and the
    recovery's reasons has no "not found" in it, the reconciler rejects with
    one error whose message contains both reasons, and the rejected command
    is the last thing it did: no command, wait or console line follows. *)
Theorem reconcileService_recovery_failure
    (env : process.env) (aws : Aws) (serviceName taskDefArn : string)
    (h : History) :
  exists t,
    snd (reconcileService env aws serviceName taskDefArn h) = (h ++ t)%list
    /\ recovery_failure_reported aws h t
         (fst (reconcileService env aws serviceName taskDefArn h)).
Proof.
  run_reconcile; norm_history; (eexists; split; [reflexivity|]);
    unfold recovery_failure_reported, recovery_failure_text;
    intros ? ? ? ? ? ? ? Et Hu; cbv zeta; intros Hr Hn;
    located; unstack;
    cbn [app] in Hr;
    (destruct Hr as [Hr | (? & ? & ? & Hd & Hp & Hr)];
     [ | cbn [firstn] in Hp; unstack;
         rewrite <- ?app_assoc in Hr; cbn [app] in Hr ]);
    repeat same_answer;
    try discriminate;
    cbn [name message] in *;
    change (String.eqb "Error" "ServiceNotFoundException") with false in *;
    cbn [orb] in *;
    try congruence;
    (split;
     [first [reflexivity
            | cbn [app]; intros Hx; repeat same_answer; discriminate]|]);
    (split; [reflexivity|]);
    (eexists; split; [reflexivity|]);
    (split; [reflexivity|]);
    apply (recovery_failure_text_contains eu er).
Qed.

(** X3. A describe call rejected with an error that is neither named
    ServiceNotFoundException nor has "not found" in its message is fatal:
    nothing more is sent and the reconciler rejects with "Failed to check
    service status: " and that message. *)
Theorem reconcileService_describe_failure
    (env : process.env) (aws : Aws) (serviceName taskDefArn : string)
    (h : History) :
  exists t,
    snd (reconcileService env aws serviceName taskDefArn h) = (h ++ t)%list
    /\ describe_failure_fatal aws h t
         (fst (reconcileService env aws serviceName taskDefArn h)).
Proof.
  run_reconcile; norm_history; (eexists; split; [reflexivity|]);
    unfold describe_failure_fatal, not_found_error;
    intros ? ? ? ? Et Hd Hn;
    located; same_answer; try congruence; now split.
Qed.

(* ================================================================== *)
(** ** Concrete runs *)
(* ================================================================== *)

(** The end-to-end scenario: agent ["a1"], one subnet, one security group,
    no service yet. *)
Example run_absent :
  let run := deployToFargate Scenario.env0
               (Scenario.scripted Scenario.absent_empty) "a1"
               Scenario.creds [] in
  operations (snd run)
  = ["CreateLogGroup"; "PutRetentionPolicy"; "RegisterTaskDefinition";
     "DescribeServices"; "CreateService"]
  /\ fst run
     = Fulfilled (deployment_of Scenario.env0 "a1" "arn:td/agent:7"
                    "arn:svc/new")
  /\ registered_images (snd run)
     = ["123456789012.dkr.ecr.us-east-1.amazonaws.com/hyperliquid-agent:latest"].
Proof. repeat split. Qed.

(** A draining service: update rejected, forced delete, two seconds' wait,
    create. *)
Example run_draining :
  let run := deployToFargate Scenario.env0
               (Scenario.scripted Scenario.draining) "a1"
               Scenario.creds [] in
  operations (snd run)
  = ["CreateLogGroup"; "PutRetentionPolicy"; "RegisterTaskDefinition";
     "DescribeServices"; "UpdateService"; "DeleteService"; "CreateService"]
  /\ In (Slept 2000) (snd run)
  /\ fst run
     = Fulfilled (deployment_of Scenario.env0 "a1" "arn:td/agent:7"
                    "arn:svc/new").
Proof. repeat split. cbn. auto 20. Qed.

(** Update rejected and delete denied, with no "not found" in either
    message: the error reported names both. *)
Example run_stuck :
  fst (deployToFargate Scenario.env0 (Scenario.scripted Scenario.stuck) "a1"
         Scenario.creds [])
  = Rejected (new_Error
      "Failed to check service status: Failed to update or delete service: Service was not ACTIVE.. Delete attempt: delete denied").
Proof. reflexivity. Qed.

(** C2, at the failing input. On a platform that rejects the first create
    with "Cluster not found." and fulfils a later one, the two signals of
    absence do not lead to the same outcome. After the empty result the
    rejected create is caught by the handler of the describe call, which
    reads its reason as not-found and sends the create again: the
    deployment is fulfilled. After the not-found rejection the rejected
    create ends the run with an error. *)
Theorem absence_signals_treated_differently :
  let empty := deployToFargate Scenario.env0
                 (Scenario.settling Scenario.nothing_found) "a1"
                 Scenario.creds [] in
  let missing := deployToFargate Scenario.env0
                   (Scenario.settling Scenario.not_found) "a1"
                   Scenario.creds [] in
  absent Scenario.nothing_found /\ absent Scenario.not_found
  /\ operations (snd empty)
     = ["CreateLogGroup"; "PutRetentionPolicy"; "RegisterTaskDefinition";
        "DescribeServices"; "CreateService"; "CreateService"]
  /\ fst empty
     = Fulfilled (deployment_of Scenario.env0 "a1" "arn:td/agent:7"
                    "arn:svc/new")
  /\ operations (snd missing)
     = ["CreateLogGroup"; "PutRetentionPolicy"; "RegisterTaskDefinition";
        "DescribeServices"; "CreateService"]
  /\ fst missing
     = Rejected (new_Error "Failed to create service: Cluster not found.").
Proof.
  cbv zeta. split; [right; reflexivity|]. split; [reflexivity|].
  repeat split.
Qed.

(** C9, at the failing input. The describe call finds the service (reported
    INACTIVE), the update is rejected, and the delete is rejected with
    "Service not found.". The error built from the two is caught by the
    handler meant for a failed describe, whose test for "not found" it
    passes: a create is sent after all, and the deployment is fulfilled. *)
Theorem create_retried_after_failed_recovery :
  let run := deployToFargate Scenario.env0
               (Scenario.scripted Scenario.inactive) "a1"
               Scenario.creds [] in
  operations (snd run)
  = ["CreateLogGroup"; "PutRetentionPolicy"; "RegisterTaskDefinition";
     "DescribeServices"; "UpdateService"; "DeleteService"; "CreateService"]
  /\ Scenario.on_deleteService Scenario.inactive
     = Rejected (mkError "ServiceNotFoundException" "Service not found.")
  /\ fst run
     = Fulfilled (deployment_of Scenario.env0 "a1" "arn:td/agent:7"
                    "arn:svc/new").
Proof. repeat split. Qed.

(** C1, at the failing input. As above, on a platform that also rejects the
    create: the one error reported is the create's, and its text contains
    neither the reason the update was rejected for nor the reason the delete
    was rejected for. *)
Theorem recovery_failure_loses_reasons :
  let run := deployToFargate Scenario.env0
               (Scenario.scripted Scenario.inactive_denied) "a1"
               Scenario.creds [] in
  operations (snd run)
  = ["CreateLogGroup"; "PutRetentionPolicy"; "RegisterTaskDefinition";
     "DescribeServices"; "UpdateService"; "DeleteService"; "CreateService"]
  /\ fst run
     = Rejected (new_Error "Failed to create service: create denied")
  /\ Js.includes "Failed to create service: create denied"
       "Service was not ACTIVE." = false
  /\ Js.includes "Failed to create service: create denied"
       "Service not found." = false.
Proof. repeat split. Qed.

(** C3 as the spec states it fails for agent ["a1"]: the family registered
    is not ["agent-a1"], the log group returned is not ["/agents/a1"], and
    the log URL does not contain ["/agents/a1"]. *)
Lemma derived_names_differ_from_spec :
  registered_families
    (snd (deployToFargate Scenario.env0
            (Scenario.scripted Scenario.absent_empty) "a1" Scenario.creds []))
  <> ["agent-a1"]
  /\ exists r,
       fst (deployToFargate Scenario.env0
              (Scenario.scripted Scenario.absent_empty) "a1"
              Scenario.creds []) = Fulfilled r
       /\ Deployment.logGroupName r <> "/agents/a1"
       /\ ~ Js.Contains (Deployment.logUrl r) "/agents/a1".
Proof.
  split; [vm_compute; discriminate|].
  eexists. split; [vm_compute; reflexivity|].
  split; [vm_compute; discriminate|].
  intros C. apply includes_Contains in C. vm_compute in C. discriminate.
Qed.

(** C8 as the spec states it fails: a caller who wants the image
    ["repo/img:latest"] deployed has no argument to say so; whatever identity
    and credentials are passed, that image is never registered. *)
Lemma image_is_not_a_parameter :
  ~ exists agentId credentials,
      In "repo/img:latest"
        (registered_images
           (snd (deployToFargate Scenario.env0
                   (Scenario.scripted Scenario.absent_empty) agentId
                   credentials []))).
Proof.
  intros (agentId & credentials & H).
  destruct (deployToFargate_images Scenario.env0
              (Scenario.scripted Scenario.absent_empty) agentId credentials [])
    as (t & E & F).
  cbn [app] in E. rewrite E in H.
  apply registered_images_configured in F.
  rewrite Forall_forall in F. specialize (F _ H).
  vm_compute in F. discriminate.
Qed.

(* ================================================================== *)
(** ** The theorems at work on the concrete worlds *)
(* ================================================================== *)

(** C4 at a process started without [SUBNET_IDS]. *)
Lemma deployToFargate_fails_fast_witness :
  SUBNET_IDS Scenario.env_no_subnets = []
  /\ exists variable,
       In variable
         ["SUBNET_IDS"; "SECURITY_GROUP_IDS"; "ECS_EXECUTION_ROLE_ARN"]
       /\ deployToFargate Scenario.env_no_subnets
            (Scenario.scripted Scenario.active) "a1" Scenario.creds []
          = (Rejected (new_Error
                         (variable ++ " environment variable is required")),
             [banner "a1"])
       /\ commands
            (snd (deployToFargate Scenario.env_no_subnets
                    (Scenario.scripted Scenario.active) "a1"
                    Scenario.creds []))
          = [].
Proof.
  split; [reflexivity|].
  apply (deployToFargate_fails_fast Scenario.env_no_subnets
           (Scenario.scripted Scenario.active) "a1" Scenario.creds []).
  left. reflexivity.
Defined.

(** C7 where the log group exists already and the retention policy is
    refused: the handle is returned, after a warning. *)
Lemma ensureLogGroup_witness :
  ensureLogGroup (Scenario.scripted Scenario.draining) "a1" []
  = (Fulfilled "/ecs/hyperliquid-agents/a1",
     [Sent (CreateLogGroupCommand
              {| CreateLogGroup.logGroupName := "/ecs/hyperliquid-agents/a1" |});
      Sent (PutRetentionPolicyCommand
              {| PutRetentionPolicy.logGroupName :=
                   "/ecs/hyperliquid-agents/a1";
                 PutRetentionPolicy.retentionInDays := 30 |});
      ConsoleWarn "Retention policy failed: not authorized"]).
Proof.
  apply (proj1 (proj2 (ensureLogGroup_idempotent_best_effort
                         (Scenario.scripted Scenario.draining) "a1" []))
           (mkError "AccessDeniedException" "not authorized")).
  - right. eexists. split; reflexivity.
  - reflexivity.
Defined.

(** C5 on the draining service: the delete, ninth event of the run, follows
    a rejected update. *)
Lemma deployToFargate_update_first_witness :
  exists pre' u w e,
    firstn 8 (snd (deployToFargate Scenario.env0
                     (Scenario.scripted Scenario.draining) "a1"
                     Scenario.creds []))
    = (pre' ++ [Sent (UpdateServiceCommand u); ConsoleWarn w])%list
    /\ Scenario.scripted Scenario.draining pre' (UpdateServiceCommand u)
       = Rejected e.
Proof.
  destruct (deployToFargate_update_first Scenario.env0
              (Scenario.scripted Scenario.draining) "a1" Scenario.creds [])
    as (t & E & _ & R).
  cbn [app] in E. subst t.
  apply (R _ {| DeleteService.cluster := "hyperliquid-agents";
                DeleteService.service := "agent-svc-a1";
                DeleteService.force := true |}
           (skipn 9 (snd (deployToFargate Scenario.env0
                            (Scenario.scripted Scenario.draining) "a1"
                            Scenario.creds [])))).
  vm_compute. reflexivity.
Defined.

(** X21 on the two signals of absence: the sixth event of either run is
    the create, no command follows it, and the same handle comes back. *)
Lemma deployToFargate_creates_when_absent_witness :
  (exists c post' r,
      skipn 5 (snd (deployToFargate Scenario.env0
                      (Scenario.scripted Scenario.absent_empty) "a1"
                      Scenario.creds []))
      = Sent (CreateServiceCommand c) :: post'
      /\ commands post' = []
      /\ fst (deployToFargate Scenario.env0
                (Scenario.scripted Scenario.absent_empty) "a1"
                Scenario.creds []) = Fulfilled r
      /\ Deployment.serviceArn r = "arn:svc/new")
  /\ (exists c post' r,
      skipn 5 (snd (deployToFargate Scenario.env0
                      (Scenario.scripted Scenario.absent_exception) "a1"
                      Scenario.creds []))
      = Sent (CreateServiceCommand c) :: post'
      /\ commands post' = []
      /\ fst (deployToFargate Scenario.env0
                (Scenario.scripted Scenario.absent_exception) "a1"
                Scenario.creds []) = Fulfilled r
      /\ Deployment.serviceArn r = "arn:svc/new").
Proof.
  split.
  - destruct (deployToFargate_creates_when_absent Scenario.env0
                (Scenario.scripted Scenario.absent_empty) "a1"
                Scenario.creds []) as (t & E & _ & R).
    cbn [app] in E. subst t.
    destruct (R (firstn 4 (snd (deployToFargate Scenario.env0
                                  (Scenario.scripted Scenario.absent_empty)
                                  "a1" Scenario.creds [])))
                {| DescribeServices.cluster := "hyperliquid-agents";
                   DescribeServices.services_ := ["agent-svc-a1"] |}
                (skipn 5 (snd (deployToFargate Scenario.env0
                                 (Scenario.scripted Scenario.absent_empty)
                                 "a1" Scenario.creds []))))
      as (c & post' & P & _ & Hc).
    + vm_compute. reflexivity.
    + right. reflexivity.
    + destruct (Hc Scenario.created eq_refl) as (Q & r & Er & Hr).
      exists c, post', r. repeat split; assumption.
  - destruct (deployToFargate_creates_when_absent Scenario.env0
                (Scenario.scripted Scenario.absent_exception) "a1"
                Scenario.creds []) as (t & E & _ & R).
    cbn [app] in E. subst t.
    destruct (R (firstn 4 (snd (deployToFargate Scenario.env0
                                  (Scenario.scripted Scenario.absent_exception)
                                  "a1" Scenario.creds [])))
                {| DescribeServices.cluster := "hyperliquid-agents";
                   DescribeServices.services_ := ["agent-svc-a1"] |}
                (skipn 5 (snd (deployToFargate Scenario.env0
                                 (Scenario.scripted Scenario.absent_exception)
                                 "a1" Scenario.creds []))))
      as (c & post' & P & _ & Hc).
    + vm_compute. reflexivity.
    + reflexivity.
    + destruct (Hc Scenario.created eq_refl) as (Q & r & Er & Hr).
      exists c, post', r. repeat split; assumption.
Defined.

(** C3 for agent ["a1"]: the log URL contains the encoded log group. *)
Lemma deployToFargate_derived_names_witness :
  Js.Contains
    (Deployment.logUrl
       (deployment_of Scenario.env0 "a1" "arn:td/agent:7" "arn:svc/new"))
    "%2Fecs%2Fhyperliquid-agents%2Fa1".
Proof.
  apply (proj2 (deployToFargate_derived_names Scenario.env0
                  (Scenario.scripted Scenario.absent_empty) "a1"
                  Scenario.creds [])
           (deployment_of Scenario.env0 "a1" "arn:td/agent:7" "arn:svc/new")).
  reflexivity.
Defined.

(* ================================================================== *)
(** ** Configuration lists and encoded names *)
(* ================================================================== *)

Lemma split_go_piece (sep : ascii) (x acc rest : string) :
  free_of sep x ->
  Js.split_go sep acc (x ++ rest) = Js.split_go sep (acc ++ x) rest.
Proof.
  revert acc. induction x as [|c x IH]; intros acc F; cbn [String.append].
  - f_equal. clear. induction acc as [|a acc IH]; cbn; congruence.
  - destruct F as [ne F]. cbn [Js.split_go].
    destruct (Ascii.eqb_spec c sep) as [->|_]; [contradiction|].
    rewrite (IH _ F). now rewrite string_app_assoc.
Qed.

Lemma split_concat (sep : ascii) (x : string) (xs : list string) :
  Forall (free_of sep) (x :: xs) ->
  Js.split sep (String.concat (String sep "") (x :: xs)) = x :: xs.
Proof.
  unfold Js.split. revert x.
  induction xs as [|y ys IH]; intros x F; inversion F as [|? ? Fx Fxs]; subst.
  - cbn [String.concat].
    replace x with (x ++ "") at 1
      by (clear; induction x; cbn; congruence).
    now rewrite split_go_piece.
  - cbn [String.concat]. cbn [String.concat] in IH.
    rewrite split_go_piece by assumption.
    cbn [String.append Js.split_go]. rewrite Ascii.eqb_refl.
    cbn [String.append]. f_equal. now apply IH.
Qed.

Lemma split_go_free (sep : ascii) (s acc : string) :
  free_of sep acc -> Forall (free_of sep) (Js.split_go sep acc s).
Proof.
  revert acc. induction s as [|c s IH]; intros acc F; cbn [Js.split_go].
  - now repeat constructor.
  - destruct (Ascii.eqb_spec c sep) as [->|ne].
    + constructor; [assumption|]. now apply IH.
    + apply IH. clear IH. induction acc as [|a acc IHa]; cbn.
      * now split.
      * destruct F. split; auto.
Qed.

Lemma filter_Boolean_identifiers (xs : list string) :
  Forall (free_of ",") xs -> Forall identifier (Js.filter_Boolean xs).
Proof.
  unfold Js.filter_Boolean. induction 1 as [|x xs Fx F IH]; cbn [filter].
  - constructor.
  - destruct (String.eqb_spec x ""); cbn [negb]; [assumption|].
    constructor; [now split | assumption].
Qed.

Lemma filter_Boolean_keeps (xs : list string) :
  Forall identifier xs -> Js.filter_Boolean xs = xs.
Proof.
  unfold Js.filter_Boolean. induction 1 as [|x xs [ne _] F IH]; cbn [filter].
  - reflexivity.
  - destruct (String.eqb_spec x ""); [contradiction|]. cbn [negb].
    now rewrite IH.
Qed.

(** X4. Whatever [SUBNET_IDS] and [SECURITY_GROUP_IDS] are set to, the lists
    the deployer reads from them hold identifiers only: no entry is empty
    and none contains a comma, so stray and doubled commas are ignored. *)
Theorem placement_lists_hold_identifiers (env : process.env) :
  Forall identifier (SUBNET_IDS env)
  /\ Forall identifier (SECURITY_GROUP_IDS env).
Proof.
  split; apply filter_Boolean_identifiers; now apply split_go_free.
Qed.

(** X5. A list of identifiers written with commas between them into
    [SUBNET_IDS] (or [SECURITY_GROUP_IDS]) is read back as that very list. *)
Theorem placement_lists_round_trip (env : process.env) (ids : list string) :
  Forall identifier ids ->
  (process.SUBNET_IDS env = Some (String.concat "," ids) ->
   SUBNET_IDS env = ids)
  /\ (process.SECURITY_GROUP_IDS env = Some (String.concat "," ids) ->
      SECURITY_GROUP_IDS env = ids).
Proof.
  intros F.
  assert (R : Js.filter_Boolean
                (Js.split "," (Js.or_else (Some (String.concat "," ids)) ""))
              = ids).
  { assert (E : Js.or_else (Some (String.concat "," ids)) ""
                = String.concat "," ids).
    { unfold Js.or_else.
      now destruct (String.eqb_spec (String.concat "," ids) "") as [->|]. }
    rewrite E. destruct ids as [|x xs]; [reflexivity|].
    rewrite split_concat.
    - now apply filter_Boolean_keeps.
    - eapply Forall_impl; [|exact F]. now intros s [_ Fs]. }
  unfold SUBNET_IDS, SECURITY_GROUP_IDS. split; intros ->; exact R.
Qed.

Lemma hex_value_digit (n : nat) :
  (n < 16)%nat -> hex_value (Js.hex_digit n) = n.
Proof.
  intros L. do 16 (destruct n as [|n]; [reflexivity|]). lia.
Qed.

Lemma unreserved_not_percent (c : ascii) :
  Js.unreserved c = true -> Ascii.eqb c "%" = false.
Proof.
  destruct (Ascii.eqb_spec c "%") as [->|]; [discriminate | reflexivity].
Qed.

(** [decodeURIComponent] undoes [Js.encodeURIComponent]. *)
Lemma decode_encode (s : string) :
  decodeURIComponent (Js.encodeURIComponent s) = s.
Proof.
  induction s as [|c s IH]; [reflexivity|].
  cbn [Js.encodeURIComponent].
  destruct (Js.unreserved c) eqn:U.
  - cbn [String.append decodeURIComponent].
    rewrite (unreserved_not_percent _ U). now rewrite IH.
  - unfold Js.percent. cbn [String.append decodeURIComponent].
    change (Ascii.eqb "%" "%") with true. cbv iota. rewrite IH.
    f_equal.
    assert (L : (nat_of_ascii c < 256)%nat) by apply nat_ascii_bounded.
    rewrite !hex_value_digit.
    + rewrite <- (ascii_nat_embedding c) at 3. f_equal.
      symmetry. apply Nat.div_mod_eq.
    + apply Nat.mod_upper_bound. lia.
    + apply Nat.Div0.div_lt_upper_bound. lia.
Qed.

Lemma string_app_inv_head (p a b : string) : p ++ a = p ++ b -> a = b.
Proof.
  induction p as [|c p IH]; cbn; [trivial|]. intros [= H]. auto.
Qed.

(** X6. Different agents never share a derived name: the log group, hence
    the log URL, of a fulfilled deployment determines the agent's identity
    (under one configuration). *)
Theorem deployToFargate_names_tell_agents_apart
    (env : process.env) (aws1 aws2 : Aws) (x1 x2 : string)
    (credentials1 credentials2 : Credentials) (h1 h2 : History)
    (r1 r2 : Deployment.t) :
  fst (deployToFargate env aws1 x1 credentials1 h1) = Fulfilled r1 ->
  fst (deployToFargate env aws2 x2 credentials2 h2) = Fulfilled r2 ->
  (Deployment.logGroupName r1 = Deployment.logGroupName r2 -> x1 = x2)
  /\ (Deployment.logUrl r1 = Deployment.logUrl r2 -> x1 = x2).
Proof.
  intros E1 E2.
  destruct (deployToFargate_result _ _ _ _ _ _ E1) as (td1 & arn1 & ->).
  destruct (deployToFargate_result _ _ _ _ _ _ E2) as (td2 & arn2 & ->).
  cbn [deployment_of Deployment.logGroupName Deployment.logUrl]. split.
  - apply string_app_inv_head.
  - intros E. do 5 apply string_app_inv_head in E.
    apply (f_equal decodeURIComponent) in E. rewrite !decode_encode in E.
    revert E. apply string_app_inv_head.
Qed.

(* ================================================================== *)
(** ** What a deployment sends, in which order, and with what *)
(* ================================================================== *)

Lemma operations_app (h1 h2 : History) :
  operations (h1 ++ h2)%list = (operations h1 ++ operations h2)%list.
Proof. unfold operations. now rewrite commands_app, map_app. Qed.

Lemma ensureLogGroup_operations (aws : Aws) (agentId : string) (h : History) :
  exists t,
    snd (ensureLogGroup aws agentId h) = (h ++ t)%list
    /\ Forall setup_event t
    /\ match fst (ensureLogGroup aws agentId h) with
       | Fulfilled lg =>
           lg = "/ecs/hyperliquid-agents/" ++ agentId
           /\ operations t = ["CreateLogGroup"; "PutRetentionPolicy"]
       | Rejected _ => operations t = ["CreateLogGroup"]
       end.
Proof.
  run_ensureLogGroup; norm_history;
    (eexists; split; [reflexivity|]);
    (split; [repeat constructor|]); repeat split.
Qed.

(** The stages of [deployToFargate], with what is known when the reconciler
    takes over: the setup sent its three commands, and the task definition
    handed to the reconciler is the one the platform answered. *)
Lemma deployToFargate_stages_detail
    (env : process.env) (aws : Aws) (agentId : string)
    (credentials : Credentials) (h : History) :
  (exists e t1,
      deployToFargate env aws agentId credentials h
      = (Rejected e, (h ++ t1)%list)
      /\ Forall setup_event t1
      /\ In (operations t1)
           [ []; ["CreateLogGroup"];
             ["CreateLogGroup"; "PutRetentionPolicy";
              "RegisterTaskDefinition"] ])
  \/ (exists tl i out,
        let t1 := (banner agentId :: tl
                     ++ [Sent (RegisterTaskDefinitionCommand i)])%list in
        let td := RegisterTaskDefinition.taskDefinitionArn
                    (RegisterTaskDefinition.taskDefinition out) in
        Forall setup_event t1
        /\ operations t1
           = ["CreateLogGroup"; "PutRetentionPolicy";
              "RegisterTaskDefinition"]
        /\ aws (h ++ banner agentId :: tl)%list
             (RegisterTaskDefinitionCommand i) = Fulfilled out
        /\ deployToFargate env aws agentId credentials h
           = let r := reconcileService env aws ("agent-svc-" ++ agentId)
                        td (h ++ t1)%list in
             (match fst r with
              | Fulfilled serviceArn =>
                  Fulfilled (deployment_of env agentId td serviceArn)
              | Rejected e => Rejected e
              end, snd r)).
Proof.
  destruct (ensureLogGroup_operations aws agentId (h ++ [banner agentId])%list)
    as (tl & Hl & Fl & Ho).
  assert (Fb : Forall setup_event [banner agentId]) by (repeat constructor).
  cbv beta iota zeta delta [deployToFargate bind emit throw ret send fst snd].
  fold (banner agentId).
  destruct (length (SUBNET_IDS env) =? 0)%nat;
    [left; exists (new_Error "SUBNET_IDS environment variable is required"),
       [banner agentId]; cbn; auto|].
  destruct (length (SECURITY_GROUP_IDS env) =? 0)%nat;
    [left; eexists _, [banner agentId]; cbn; auto|].
  destruct (Js.falsy (ECS_EXECUTION_ROLE_ARN env));
    [left; eexists _, [banner agentId]; cbn; auto|].
  destruct (ensureLogGroup aws agentId (h ++ [banner agentId])%list)
    as [[lg|e] h1]; cbn [fst snd] in Hl, Ho; subst h1.
  - destruct Ho as [-> Ho].
    match goal with
    | |- context [aws ?hh (RegisterTaskDefinitionCommand ?i)] =>
        set (input := i);
        assert (Fr : Forall setup_event
                       (banner agentId :: tl
                          ++ [Sent (RegisterTaskDefinitionCommand input)])%list)
          by (constructor; [exact I|]; apply Forall_app; split; auto;
              repeat constructor);
        assert (Or : operations
                       (banner agentId :: tl
                          ++ [Sent (RegisterTaskDefinitionCommand input)])%list
                     = ["CreateLogGroup"; "PutRetentionPolicy";
                        "RegisterTaskDefinition"])
          by (change (banner agentId :: tl ++ ?x)%list
                with ([banner agentId] ++ tl ++ x)%list;
              rewrite !operations_app, Ho; reflexivity);
        destruct (aws hh (RegisterTaskDefinitionCommand input))
          as [resp|e] eqn:Ea
    end.
    + right. exists tl, input, resp. cbv zeta.
      split; [exact Fr|]. split; [exact Or|].
      rewrite <- !app_assoc in *. cbn [app] in *. split; [exact Ea|].
      cbv beta iota zeta delta [fst snd].
      now destruct (reconcileService _ _ _ _ _) as [[arn|e] h2].
    + left. exists e, (banner agentId :: tl
                         ++ [Sent (RegisterTaskDefinitionCommand input)])%list.
      rewrite <- !app_assoc. cbn [app]. split; [reflexivity|].
      split; [exact Fr|]. rewrite Or. cbn; auto.
  - left. exists e, (banner agentId :: tl)%list.
    rewrite <- app_assoc. cbn [app]. split; [reflexivity|]. split.
    + now constructor.
    + change (banner agentId :: tl)%list with ([banner agentId] ++ tl)%list.
      rewrite operations_app, Ho. cbn; auto.
Qed.

Lemma reconcileService_protocol
    (env : process.env) (aws : Aws) (serviceName taskDefArn : string)
    (h : History) :
  exists t,
    snd (reconcileService env aws serviceName taskDefArn h) = (h ++ t)%list
    /\ In (operations t) reconcile_protocols.
Proof.
  run_reconcile; norm_history; (eexists; split; [reflexivity|]);
    cbn; auto 10.
Qed.

(** X7. The commands of a deployment follow one of ten fixed sequences:
    the three setup commands in order, then a describe, then a create, or an
    update, or an update, a delete and a create, with at most one further
    create; a run that stops early sends a prefix of these.  So a deployment
    sends at most eight commands, at most one update, one delete and two
    creates. *)
Theorem deployToFargate_protocol
    (env : process.env) (aws : Aws) (agentId : string)
    (credentials : Credentials) (h : History) :
  exists t,
    snd (deployToFargate env aws agentId credentials h) = (h ++ t)%list
    /\ In (operations t) deploy_protocols
    /\ (length (commands t) <= 8)%nat.
Proof.
  assert (B : forall p, In p deploy_protocols -> (length p <= 8)%nat).
  { intros p Hp. cbn in Hp.
    repeat (destruct Hp as [<- | Hp]; [cbn; lia|]). destruct Hp. }
  assert (L : forall t, length (commands t) = length (operations t))
    by (intros; unfold operations; now rewrite length_map).
  destruct (deployToFargate_stages_detail env aws agentId credentials h)
    as [(e & t1 & E & F & O) | (tl & i & out & F & O & _ & E)];
    rewrite E; cbn [snd].
  - exists t1. split; [reflexivity|].
    assert (Hp : In (operations t1) deploy_protocols).
    { unfold deploy_protocols. cbv zeta. apply in_or_app. left. exact O. }
    split; [exact Hp|]. rewrite L. now apply B.
  - cbv zeta in *.
    destruct (reconcileService_protocol env aws ("agent-svc-" ++ agentId)
                (RegisterTaskDefinition.taskDefinitionArn
                   (RegisterTaskDefinition.taskDefinition out))
                (h ++ banner agentId :: tl
                   ++ [Sent (RegisterTaskDefinitionCommand i)])%list)
      as (t2 & E2 & P2).
    rewrite E2, <- app_assoc. eexists. split; [reflexivity|].
    assert (Hp : In (operations
                       ((banner agentId :: tl
                           ++ [Sent (RegisterTaskDefinitionCommand i)])
                          ++ t2)%list) deploy_protocols).
    { rewrite operations_app, O. unfold deploy_protocols. cbv zeta.
      apply in_or_app. right.
      apply (in_map (fun p =>
                       (["CreateLogGroup"; "PutRetentionPolicy";
                         "RegisterTaskDefinition"] ++ p)%list)). exact P2. }
    split; [exact Hp|]. rewrite L. now apply B.
Qed.

Lemma sends_only_bind_result (P : Command -> Prop) {A B : Type}
    (Q : A -> Prop) (m : M A) (k : A -> M B) :
  sends_only P m ->
  (forall h a, fst (m h) = Fulfilled a -> Q a) ->
  (forall a, Q a -> sends_only P (k a)) ->
  sends_only P (bind m k).
Proof.
  intros Hm Hq Hk h. destruct (Hm h) as (t1 & E1 & F1).
  specialize (Hq h). unfold bind.
  destruct (m h) as [[a|e] h1]; cbn [fst snd] in *; subst h1.
  - destruct (Hk a (Hq a eq_refl) (h ++ t1)%list) as (t2 & E2 & F2).
    exists (t1 ++ t2)%list. rewrite E2, app_assoc, commands_app.
    split; [reflexivity|]. now apply Forall_app.
  - now exists t1.
Qed.

(** As [walk], remembering which way each test went. *)
Ltac walk_tests :=
  cbv beta zeta delta
    [deployToFargate reconcileService createNewService ensureLogGroup];
  repeat first
    [ apply sends_only_bind; [|intro]
    | apply sends_only_try_catch; [|intro]
    | apply sends_only_ret
    | apply sends_only_throw
    | apply sends_only_emit; reflexivity
    | apply sends_only_send
    | match goal with
      | |- sends_only _ (if ?b then _ else _) => destruct b eqn:?
      | |- sends_only _ (match ?x with _ => _ end) => destruct x
      end ].

Lemma length_eqb_0 {A : Type} (l : list A) :
  (length l =? 0)%nat = false -> l <> [].
Proof. now destruct l. Qed.

Lemma not_falsy (v : option string) :
  Js.falsy v = false -> exists s, v = Some s /\ s <> "".
Proof.
  destruct v as [s|]; cbn; [|discriminate].
  destruct (String.eqb_spec s ""); [discriminate|]. now exists s.
Qed.

(** X8. What the checks at the head of [deployToFargate] buy: every task
    definition it registers names an execution role, and every create it
    sends places the service in at least one subnet and one security
    group. *)
Theorem deployToFargate_sends_configured
    (env : process.env) (aws : Aws) (agentId : string)
    (credentials : Credentials) (h : History) :
  exists t,
    snd (deployToFargate env aws agentId credentials h) = (h ++ t)%list
    /\ Forall configured (commands t).
Proof.
  revert h. change (sends_only configured
                      (deployToFargate env aws agentId credentials)).
  walk_tests; cbn [configured CreateService.awsvpcConfiguration
                     AwsvpcConfiguration.subnets
                     AwsvpcConfiguration.securityGroups
                     RegisterTaskDefinition.executionRoleArn];
    auto using length_eqb_0, not_falsy.
Qed.

Lemma reconcileService_refers
    (env : process.env) (aws : Aws) (serviceName taskDefArn : string) :
  sends_only (refers_to taskDefArn)
    (reconcileService env aws serviceName taskDefArn).
Proof. walk; intros td'; cbn; congruence. Qed.

Lemma task_definition_not_setup (c : Command) (td : string) :
  task_definition_of c = Some td -> ~ setup_event (Sent c).
Proof. destruct c; cbn; intros; try discriminate; auto. Qed.

Lemma in_commands_split (pre post : History) (c : Command) :
  In c (commands (pre ++ Sent c :: post)%list).
Proof. rewrite commands_app. apply in_or_app. right. now left. Qed.

(** X9. Every create and every update of a deployment asks for the task
    definition that the platform answered, earlier in the same run, to the
    register command: a service is never pointed at a task definition of
    another run. *)
Theorem deployToFargate_runs_what_was_registered
    (env : process.env) (aws : Aws) (agentId : string)
    (credentials : Credentials) (h : History) :
  exists t,
    snd (deployToFargate env aws agentId credentials h) = (h ++ t)%list
    /\ runs_what_was_registered aws h t.
Proof.
  destruct (deployToFargate_stages_detail env aws agentId credentials h)
    as [(e & t1 & E & F & _) | (tl & i & out & F & _ & A & E)];
    rewrite E; cbn [snd].
  - exists t1. split; [reflexivity|]. intros pre c post td Et Htd.
    destruct (no_split_in_setup _ _ _ (Sent c) F
                (task_definition_not_setup _ _ Htd) Et).
  - cbv zeta in *.
    destruct (reconcileService_refers env aws ("agent-svc-" ++ agentId)
                (RegisterTaskDefinition.taskDefinitionArn
                   (RegisterTaskDefinition.taskDefinition out))
                (h ++ banner agentId :: tl
                   ++ [Sent (RegisterTaskDefinitionCommand i)])%list)
      as (t2 & E2 & R).
    rewrite E2, <- app_assoc. eexists. split; [reflexivity|].
    intros pre c post td Et Htd.
    destruct (split_after_setup _ _ _ _ (Sent c) F
                (task_definition_not_setup _ _ Htd) Et) as (pre2 & -> & ->).
    rewrite Forall_forall in R.
    exists (banner agentId :: tl)%list, i, pre2, out. split.
    + cbn [app]. now rewrite <- app_assoc.
    + split; [exact A|]. exact (R c (in_commands_split _ _ _) td Htd).
Qed.

Lemma reconcileService_handle
    (env : process.env) (aws : Aws) (serviceName taskDefArn : string)
    (h : History) (arn : string) :
  fst (reconcileService env aws serviceName taskDefArn h) = Fulfilled arn ->
  exists t,
    snd (reconcileService env aws serviceName taskDefArn h) = (h ++ t)%list
    /\ handle_of_last_command aws h t arn.
Proof.
  run_reconcile; norm_history; intros Er; try discriminate Er;
    injection Er as <-; (eexists; split; [reflexivity|]);
    unfold handle_of_last_command;
    match goal with
    | |- exists pre c l, ?t = _ /\ _ =>
        exists (removelast (removelast t))
    end;
    cbn [removelast]; do 2 eexists; (split; [reflexivity|]);
    norm_history;
    first [ eapply served_create | eapply served_update ]; eassumption.
Qed.

(** X10. The handles of a fulfilled deployment are the platform's own: its
    task definition is the one answered to the register command of this
    run, and its service is the one answered to the last command sent, a
    create or an update, after which only a console line follows. *)
Theorem deployToFargate_returns_platform_handles
    (env : process.env) (aws : Aws) (agentId : string)
    (credentials : Credentials) (h : History) (r : Deployment.t) :
  fst (deployToFargate env aws agentId credentials h) = Fulfilled r ->
  exists t,
    snd (deployToFargate env aws agentId credentials h) = (h ++ t)%list
    /\ handle_of_last_command aws h t (Deployment.serviceArn r)
    /\ exists pre i mid out,
         t = (pre ++ Sent (RegisterTaskDefinitionCommand i) :: mid)%list
         /\ aws (h ++ pre)%list (RegisterTaskDefinitionCommand i)
            = Fulfilled out
         /\ Deployment.taskDefArn r
            = RegisterTaskDefinition.taskDefinitionArn
                (RegisterTaskDefinition.taskDefinition out).
Proof.
  destruct (deployToFargate_stages_detail env aws agentId credentials h)
    as [(e & t1 & E & _) | (tl & i & out & _ & _ & A & E)];
    rewrite E; cbn [fst snd]; [discriminate|].
  cbv zeta in *.
  set (td := RegisterTaskDefinition.taskDefinitionArn
               (RegisterTaskDefinition.taskDefinition out)) in *.
  set (t1 := (banner agentId :: tl
                ++ [Sent (RegisterTaskDefinitionCommand i)])%list) in *.
  destruct (fst (reconcileService env aws ("agent-svc-" ++ agentId) td
                   (h ++ t1)%list)) as [arn|e] eqn:Er; intros [= <-].
  destruct (reconcileService_handle _ _ _ _ _ _ Er)
    as (t2 & E2 & pre & c & l & -> & S).
  rewrite E2, <- app_assoc. eexists. split; [reflexivity|]. split.
  - exists (t1 ++ pre)%list, c, l. split.
    + now rewrite app_assoc.
    + now rewrite app_assoc.
  - exists (banner agentId :: tl)%list, i, (pre ++ [Sent c; ConsoleLog l])%list,
      out.
    split; [|split; [exact A | reflexivity]].
    subst t1. cbn [app]. now rewrite <- app_assoc.
Qed.

(** X11. The container is wired to the log group that was provisioned: in
    every run, the group created, the [awslogs-group] the container writes
    to and the [LOG_GROUP_NAME] it is given are the same name, and its
    [AGENT_ID] is the agent deployed. *)
Theorem deployToFargate_logs_where_provisioned
    (env : process.env) (aws : Aws) (agentId : string)
    (credentials : Credentials) (h : History) :
  exists t,
    snd (deployToFargate env aws agentId credentials h) = (h ++ t)%list
    /\ Forall (routed_to agentId ("/ecs/hyperliquid-agents/" ++ agentId))
         (commands t).
Proof.
  revert h.
  change (sends_only
            (routed_to agentId ("/ecs/hyperliquid-agents/" ++ agentId))
            (deployToFargate env aws agentId credentials)).
  unfold deployToFargate.
  apply sends_only_bind; [apply sends_only_emit; reflexivity | intros _].
  destruct (_ =? _)%nat; [apply sends_only_throw|].
  destruct (_ =? _)%nat; [apply sends_only_throw|].
  destruct (Js.falsy _); [apply sends_only_throw|].
  apply (sends_only_bind_result _
           (fun lg => lg = "/ecs/hyperliquid-agents/" ++ agentId)).
  - walk; reflexivity.
  - intros h lg E.
    destruct (ensureLogGroup_run aws agentId h) as (_ & _ & _ & _ & Hlg).
    now apply Hlg.
  - intros lg ->. walk; cbn [routed_to]; auto.
    split; [discriminate|]. constructor; [|constructor].
    cbn [ContainerDefinition.logConfiguration LogConfiguration.options
           ContainerDefinition.environment In].
    repeat split; auto 12.
Qed.

(* ================================================================== *)
(** ** The [/deploy] endpoint *)
(* ================================================================== *)

Lemma core_app (w1 w2 : World) :
  core (w1 ++ w2)%list = (core w1 ++ core w2)%list.
Proof.
  induction w1 as [|e w1 IH]; cbn; [reflexivity|].
  destruct e; cbn; now rewrite IH.
Qed.

Lemma core_map_Core (t : History) : core (map Core t) = t.
Proof. induction t as [|ev t IH]; cbn; congruence. Qed.

Lemma queries_app (w1 w2 : World) :
  queries (w1 ++ w2)%list = (queries w1 ++ queries w2)%list.
Proof.
  induction w1 as [|e w1 IH]; cbn; [reflexivity|].
  destruct e; cbn; now rewrite IH.
Qed.

Lemma queries_map_Core (t : History) : queries (map Core t) = [].
Proof. induction t as [|ev t IH]; cbn; congruence. Qed.

Lemma skipn_app_exact {A : Type} (l t : list A) :
  skipn (length l) (l ++ t)%list = t.
Proof. induction l; cbn; auto. Qed.

Lemma generateAgentCode_appends
    (env : process.env) (axios : Axios) (strategyDescription : string)
    (flag : Js.value) (h : History) :
  snd (generateAgentCode env axios strategyDescription flag h)
  = (h ++ [ConsoleLog "🤖 Calling AI engine...";
           Posted (AI_ENGINE_URL env ++ "/generate")
             {| strategy_description := strategyDescription |}])%list.
Proof.
  cbv beta iota zeta delta [generateAgentCode bind post emit ret throw snd].
  destruct (axios _ _ _) as [data|e]; cbn [snd].
  - destruct (negb (GenerateData.success data)); cbn [snd];
      now rewrite <- app_assoc.
  - now rewrite <- app_assoc.
Qed.

Lemma deployToFargate_forwards
    (env : process.env) (aws : Aws) (agentId : string)
    (credentials : Credentials) :
  sends_only (fun c => derived_names agentId c /\ forwards credentials c)
    (deployToFargate env aws agentId credentials).
Proof.
  walk; (split; [reflexivity|]); cbn [forwards]; auto.
  constructor; [|constructor].
  cbn [ContainerDefinition.environment In]. auto 12.
Qed.

(** An event that is not one of the deployer's, found after a stretch of
    the deployer's events, lies beyond that stretch. *)
Lemma split_past_core (td : History) (s pre post : World) (x : Effect) :
  (forall ev, x <> Core ev) ->
  (map Core td ++ s = pre ++ x :: post)%list ->
  exists pre', pre = (map Core td ++ pre')%list /\ s = (pre' ++ x :: post)%list.
Proof.
  intros nx. revert pre.
  induction td as [|ev td IH]; cbn [map app]; intros pre E.
  - now exists pre.
  - destruct (split_cons _ _ _ _ _ E) as [(-> & <- & _) | (pre' & -> & E')].
    + now destruct (nx ev).
    + destruct (IH _ E') as (pre2 & -> & ->). now exists pre2.
Qed.

(** Runs the endpoint on symbolic oracles, down to its calls of
    [generateAgentCode] and [deployToFargate]. *)
Ltac run_handler :=
  cbv beta iota zeta delta
    [post_deploy createAgentRecord updateAgentDeployment
     Handler.bind Handler.try_catch Handler.ret Handler.throw Handler.emit
     Handler.query Handler.now Handler.call fst snd];
  break_all.

(** Names what the two calls added to the world, and writes every world as
    [w ++ [e1; ...; en]]. *)
Ltac tidy_handler :=
  repeat match goal with
         | E : generateAgentCode ?env ?ax ?sd ?fl ?h = (_, ?h0) |- _ =>
             let A := fresh "A" in
             pose proof (generateAgentCode_appends env ax sd fl h) as A;
             rewrite E in A; cbn [snd] in A; subst h0
         | E : deployToFargate ?env ?aws ?x ?cr ?h = (_, ?h0) |- _ =>
             let td := fresh "td" in
             let A := fresh "A" in
             let F := fresh "F" in
             destruct (deployToFargate_forwards env aws x cr h)
               as (td & A & F);
             rewrite E in A; cbn [snd] in A; subst h0
         end;
  rewrite ?skipn_app_exact in *;
  cbn [AgentData.userId AgentData.agentName AgentData.strategyDescription
       AgentData.hyperliquidAddress AgentData.initialization_code
       AgentData.trigger_code AgentData.execution_code map
       new_Error message name] in *;
  repeat rewrite <- app_assoc in *; cbn [app] in *.

(** Reads the queries and the deployer's events off a world. *)
Ltac read_world :=
  repeat (progress
            (cbn [queries core commands app];
             rewrite ?queries_app, ?queries_map_Core, ?core_app,
               ?core_map_Core, ?commands_app)).

(** Finds the event a hypothesis [t = pre ++ x :: post] speaks of, in a
    world made of listed effects and stretches of the deployer's events. *)
Ltac splits_w H :=
  lazymatch type of H with
  | [] = _ => destruct (split_nil _ _ _ H)
  | (map Core ?td ++ ?s)%list = (?pre ++ ?x :: ?post)%list =>
      let pre' := fresh "pre" in
      let H' := fresh H in
      destruct (split_past_core td s pre post x
                  ltac:(intros ? ?; discriminate) H) as (pre' & -> & H');
      clear H; splits_w H'
  | _ :: _ = _ =>
      let pre' := fresh "pre" in
      let H' := fresh H in
      destruct (split_cons _ _ _ _ _ H) as [(-> & ? & ?) | (pre' & -> & H')];
      clear H; [ | splits_w H' ]
  end.

Lemma Queried_inj (q1 q2 : Query) : Queried q1 = Queried q2 -> q1 = q2.
Proof. now intros [= ->]. Qed.

Lemma Insert_inj (r1 r2 : AgentInsert.t) : Insert r1 = Insert r2 -> r1 = r2.
Proof. now intros [= ->]. Qed.

Lemma Update_inj (p1 p2 : AgentUpdate.t) (i1 i2 : string) :
  Update p1 i1 = Update p2 i2 -> p1 = p2 /\ i1 = i2.
Proof. now intros [= -> ->]. Qed.

(** Takes apart equations between effects and between queries, leaving
    their members as they are written. *)
Ltac unstack_w :=
  repeat match goal with
         | H : Queried _ = Queried _ |- _ => apply Queried_inj in H
         | H : Insert _ = Insert _ |- _ => apply Insert_inj in H
         | H : Update _ _ = Update _ _ |- _ =>
             apply Update_inj in H; destruct H
         | H : ?a = ?b :> Effect |- _ => discriminate H
         | H : ?a = ?b :> Query |- _ => discriminate H
         end;
  subst.

Ltac located_w :=
  match goal with H : _ = (_ ++ _ :: _)%list |- _ => splits_w H end;
  unstack_w; rewrite ?app_nil_r in *; cbn [app] in *.

(** Two answers to the same request at the same world. *)
Ltac same_reply :=
  match goal with
  | H1 : ?f ?w ?q = _, H2 : ?f ?w ?q = _ |- _ =>
      rewrite H1 in H2; first [discriminate H2 | injection H2 as H2; subst]
  | H1 : ?m ?h = (_, _), H2 : context [?m ?h] |- _ =>
      rewrite H1 in H2; cbv beta iota delta [fst] in H2;
      first [discriminate H2 | injection H2 as H2; subst]
  end.

Section Endpoint_facts.

Variable env : process.env.
Variable aws : Aws.
Variable axios : Axios.
Variable supabase : Supabase.
Variable clock : Clock.

Lemma incomplete_body (body : DeployRequest.body) :
  complete body
  \/ Js.falsy (DeployRequest.userId body)
     || Js.falsy (DeployRequest.agentName body)
     || Js.falsy (DeployRequest.strategyDescription body)
     || Js.falsy (DeployRequest.hyperliquidAddress body)
     || Js.falsy (DeployRequest.apiKey body) = true.
Proof.
  unfold complete.
  destruct (Js.falsy (DeployRequest.userId body)),
    (Js.falsy (DeployRequest.agentName body)),
    (Js.falsy (DeployRequest.strategyDescription body)),
    (Js.falsy (DeployRequest.hyperliquidAddress body)),
    (Js.falsy (DeployRequest.apiKey body)); cbn; auto 10.
Qed.

(** X12. A request that lacks one of the five required members, or has it
    empty, is answered 400 "Missing required fields" and has no effect at
    all: nothing is generated, stored, deployed or printed. *)
Theorem post_deploy_rejects_incomplete
    (body : DeployRequest.body) (w : World) :
  ~ complete body ->
  post_deploy env aws axios supabase clock body w
  = (Fulfilled {| Response.status := 400;
                  Response.body :=
                    Response.Failure "Missing required fields" |}, w).
Proof.
  intros N. destruct (incomplete_body body) as [C | I]; [contradiction|].
  cbv beta iota zeta delta
    [post_deploy Handler.try_catch Handler.ret]. now rewrite I.
Qed.

(** X13. The members [isMainnet], [maxPositionSize], [maxLeverage],
    [dailyLossLimit] and [useTestCode] of a request change nothing: two
    requests that agree on the five required members are handled alike, with
    the same response and the same effects. *)
Theorem post_deploy_ignores_optional_members
    (body1 body2 : DeployRequest.body) (w : World) :
  DeployRequest.userId body1 = DeployRequest.userId body2 ->
  DeployRequest.agentName body1 = DeployRequest.agentName body2 ->
  DeployRequest.strategyDescription body1
  = DeployRequest.strategyDescription body2 ->
  DeployRequest.hyperliquidAddress body1
  = DeployRequest.hyperliquidAddress body2 ->
  DeployRequest.apiKey body1 = DeployRequest.apiKey body2 ->
  post_deploy env aws axios supabase clock body1 w
  = post_deploy env aws axios supabase clock body2 w.
Proof.
  destruct body1, body2. cbn. intros -> -> -> -> ->. reflexivity.
Qed.

(** X14. The endpoint always answers, and its bookkeeping follows one of
    six patterns: a 400 or a 500 without any query; a 500 after the insert
    alone; a 500 after the insert and an update to error, with at most an
    update to running in between; a 200 after the insert and an update to
    running, and nothing else.  So a row is inserted at most once and
    before any update, a 200 is never sent without the row having been set
    to running, and only a request that sends at least two queries has sent
    anything to the platform. *)
Theorem post_deploy_bookkeeping (body : DeployRequest.body) (w : World) :
  exists resp t,
    post_deploy env aws axios supabase clock body w
    = (Fulfilled resp, (w ++ t)%list)
    /\ In (Response.status resp, map purpose (queries t)) bookkeeping
    /\ ((length (queries t) <= 1)%nat -> commands (core t) = []).
Proof.
  run_handler; tidy_handler;
    first [ eexists _, _; split; [reflexivity|]
          | eexists _, []; split; [now rewrite app_nil_r|] ];
    read_world;
    cbn [map purpose AgentUpdate.status Response.status length];
    (split; [cbn; auto 10 | intros L; cbn in L; first [reflexivity | lia]]).
Qed.


(** X16. When the deployment itself fails, that is what the caller is told:
    whatever then happens to the attempt to mark the row, the response is
    500 with the message of the deployment's error, and exactly one more
    query is sent, which sets the row to error. *)
Theorem post_deploy_reports_deployment_error
    (body : DeployRequest.body) (w : World) :
  exists resp t,
    post_deploy env aws axios supabase clock body w
    = (Fulfilled resp, (w ++ t)%list)
    /\ forall pre row post agent e,
         t = (pre ++ Queried (Insert row) :: post)%list ->
         supabase (w ++ pre)%list (Insert row) = Fulfilled (inr agent) ->
         fst (deployToFargate env aws (AgentRow.id agent)
                (credentials_of body)
                (core (w ++ pre
                         ++ [Queried (Insert row);
                             Core (ConsoleLog ("✅ Agent created: "
                                                 ++ AgentRow.id agent))])%list))
         = Rejected e ->
         resp = {| Response.status := 500;
                   Response.body := Response.Failure (message e) |}
         /\ exists q, queries post = [q] /\ marks_error (AgentRow.id agent) q.
Proof.
  run_handler; tidy_handler;
    (first [ eexists _, _; split; [reflexivity|]
           | eexists _, []; split; [now rewrite app_nil_r|] ]);
    intros ? ? ? ? ? Et Hs Hd; unfold credentials_of in Hd;
    located_w; repeat same_reply; try discriminate.
  all: (split; [reflexivity|]); read_world;
    eexists; (split; [reflexivity|]); eexists; reflexivity.
Qed.


(** X17. A deployment that went through is still reported as failed when
    its record cannot be updated: if the query that sets the row to running
    fails, the response is 500 with that failure's message, one more query
    sets the row to error, and nothing is undone on the platform, to which
    no further command is sent. *)
Theorem post_deploy_reports_bookkeeping_error
    (body : DeployRequest.body) (w : World) :
  exists resp t,
    post_deploy env aws axios supabase clock body w
    = (Fulfilled resp, (w ++ t)%list)
    /\ forall pre patch agentId post msg,
         t = (pre ++ Queried (Update patch agentId) :: post)%list ->
         AgentUpdate.status patch = "running" ->
         update_failed (supabase (w ++ pre)%list (Update patch agentId)) msg ->
         resp = {| Response.status := 500;
                   Response.body := Response.Failure msg |}
         /\ commands (core post) = []
         /\ exists q, queries post = [q] /\ marks_error agentId q.
Proof.
  run_handler; tidy_handler;
    (first [ eexists _, _; split; [reflexivity|]
           | eexists _, []; split; [now rewrite app_nil_r|] ]);
    intros ? ? ? ? ? Et Hs Hu;
    located_w; try discriminate Hs;
    (destruct Hu as [(? & Hu & ->) | (? & Hu & ->)]);
    repeat same_reply; try discriminate.
  all: (split; [reflexivity|]); read_world; (split; [reflexivity|]);
    eexists; (split; [reflexivity|]); eexists; reflexivity.
Qed.

(** X18. The agent deployed is the agent recorded: nothing is sent to the
    platform or the datastore before the row is inserted; the row carries
    the request's owner, name, strategy and address and starts as
    "deploying"; and once the datastore has answered with the row, every
    command sent to the platform is named after that row's identity and
    every later query updates that row. *)
Theorem post_deploy_deploys_the_recorded_agent
    (body : DeployRequest.body) (w : World) :
  exists resp t,
    post_deploy env aws axios supabase clock body w
    = (Fulfilled resp, (w ++ t)%list)
    /\ forall pre row post agent,
         t = (pre ++ Queried (Insert row) :: post)%list ->
         supabase (w ++ pre)%list (Insert row) = Fulfilled (inr agent) ->
         commands (core pre) = [] /\ queries pre = []
         /\ AgentInsert.user_id row = the_string (DeployRequest.userId body)
         /\ AgentInsert.agent_name row
            = the_string (DeployRequest.agentName body)
         /\ AgentInsert.strategy_description row
            = the_string (DeployRequest.strategyDescription body)
         /\ AgentInsert.hyperliquid_address row
            = the_string (DeployRequest.hyperliquidAddress body)
         /\ AgentInsert.status row = "deploying"
         /\ Forall (derived_names (AgentRow.id agent)) (commands (core post))
         /\ Forall (fun q => exists patch, q = Update patch (AgentRow.id agent))
              (queries post).
Proof.
  run_handler; tidy_handler;
    (first [ eexists _, _; split; [reflexivity|]
           | eexists _, []; split; [now rewrite app_nil_r|] ]);
    intros ? ? ? ? Et Hs;
    located_w; repeat same_reply; try discriminate;
    read_world; repeat (split; [reflexivity|]);
    rewrite ?app_nil_r;
    (split;
     [ first [ eapply Forall_impl; [|eassumption]; now intros c [N _]
             | constructor ]
     | repeat constructor; eexists; reflexivity ]).
Qed.

(** X19. The credentials of the request reach the container and nothing
    else decides them: every task definition registered while a request is
    handled gives its container the request's [apiKey] as
    [HYPERLIQUID_PRIVATE_KEY] and its [hyperliquidAddress] as
    [HYPERLIQUID_ADDRESS]. *)
Theorem post_deploy_forwards_credentials
    (body : DeployRequest.body) (w : World) :
  exists resp t,
    post_deploy env aws axios supabase clock body w
    = (Fulfilled resp, (w ++ t)%list)
    /\ Forall (forwards (credentials_of body)) (commands (core t)).
Proof.
  run_handler; tidy_handler;
    (first [ eexists _, _; split; [reflexivity|]
           | eexists _, []; split; [now rewrite app_nil_r|] ]);
    read_world; rewrite ?app_nil_r;
    first [ eapply Forall_impl; [|eassumption]; now intros c [_ N]
          | constructor ].
Qed.

Lemma generateAgentCode_fails
    (strategyDescription : string) (flag : Js.value) (h : History)
    (msg : string) :
  generation_failed
    (axios (h ++ [ConsoleLog "🤖 Calling AI engine..."])%list
       (AI_ENGINE_URL env ++ "/generate")
       {| strategy_description := strategyDescription |}) msg ->
  exists e,
    fst (generateAgentCode env axios strategyDescription flag h) = Rejected e
    /\ message e = msg.
Proof.
  cbv beta iota zeta delta [generateAgentCode bind post emit ret throw fst].
  intros [(data & -> & S & ->) | (e & -> & ->)].
  - rewrite S. cbn. eauto.
  - eauto.
Qed.

(** X20. When code generation fails, because the request to the engine is
    rejected or because the engine answers without success, the caller gets
    a 500 with the engine's error text ("Code generation failed" when it
    gave none), and nothing is stored or deployed. *)
Theorem post_deploy_stops_at_failed_generation
    (body : DeployRequest.body) (w : World) (msg : string) :
  complete body ->
  generation_failed
    (axios (core w ++ [ConsoleLog "🤖 Calling AI engine..."])%list
       (AI_ENGINE_URL env ++ "/generate")
       {| strategy_description :=
            the_string (DeployRequest.strategyDescription body) |}) msg ->
  exists t,
    post_deploy env aws axios supabase clock body w
    = (Fulfilled {| Response.status := 500;
                    Response.body := Response.Failure msg |}, (w ++ t)%list)
    /\ queries t = [] /\ commands (core t) = [].
Proof.
  intros (C1 & C2 & C3 & C4 & C5) G.
  destruct (generateAgentCode_fails _
              (default_to (DeployRequest.useTestCode body) (Js.boolean false))
              _ _ G) as (e & Ee & <-).
  cbv beta iota zeta delta
    [post_deploy Handler.bind Handler.try_catch Handler.ret Handler.throw
     Handler.emit Handler.call fst snd].
  rewrite C1, C2, C3, C4, C5. cbn [orb].
  pose proof (generateAgentCode_appends env axios
                (the_string (DeployRequest.strategyDescription body))
                (default_to (DeployRequest.useTestCode body)
                   (Js.boolean false)) (core w)) as A.
  destruct (generateAgentCode _ _ _ _ _) as [o h0].
  cbn [fst snd] in Ee, A. subst o h0. rewrite skipn_app_exact.
  rewrite <- app_assoc. eexists. split; [reflexivity|]. now split.
Qed.

End Endpoint_facts.

(* ================================================================== *)
(** ** The further theorems at work on the concrete worlds *)
(* ================================================================== *)

(** X5 at a process started with [SUBNET_IDS=s-1,s-2]. *)
Lemma placement_lists_round_trip_witness :
  SUBNET_IDS Caller.env_two_subnets = ["s-1"; "s-2"].
Proof.
  apply (proj1 (placement_lists_round_trip Caller.env_two_subnets
                  ["s-1"; "s-2"]
                  ltac:(repeat constructor; cbn; discriminate))).
  reflexivity.
Defined.

(** X6 for two agents of one process: their log groups differ. *)
Lemma deployToFargate_names_tell_agents_apart_witness :
  Deployment.logGroupName
    (deployment_of Scenario.env0 "a1" "arn:td/agent:7" "arn:svc/new")
  <> Deployment.logGroupName
       (deployment_of Scenario.env0 "a2" "arn:td/agent:7" "arn:svc/old").
Proof.
  intros E.
  assert (D : "a1" = "a2"); [|discriminate D].
  apply (proj1 (deployToFargate_names_tell_agents_apart Scenario.env0
                  (Scenario.scripted Scenario.absent_empty)
                  (Scenario.scripted Scenario.active) "a1" "a2"
                  Scenario.creds Scenario.creds [] []
                  (deployment_of Scenario.env0 "a1" "arn:td/agent:7"
                     "arn:svc/new")
                  (deployment_of Scenario.env0 "a2" "arn:td/agent:7"
                     "arn:svc/old")
                  eq_refl eq_refl)).
  exact E.
Defined.

(** X10 on the active service: the handle returned is the one the platform
    answered to the update. *)
Lemma deployToFargate_returns_platform_handles_witness :
  handle_of_last_command (Scenario.scripted Scenario.active) []
    (snd (deployToFargate Scenario.env0 (Scenario.scripted Scenario.active)
            "a1" Scenario.creds []))
    "arn:svc/old".
Proof.
  destruct (deployToFargate_returns_platform_handles Scenario.env0
              (Scenario.scripted Scenario.active) "a1" Scenario.creds []
              (deployment_of Scenario.env0 "a1" "arn:td/agent:7"
                 "arn:svc/old") eq_refl) as (t & E & R & _).
  cbn [app] in E. subst t. exact R.
Defined.

(** X12 for a request whose [apiKey] is empty. *)
Lemma post_deploy_rejects_incomplete_witness :
  post_deploy Scenario.env0 (Scenario.scripted Scenario.active)
    Caller.engine_up Caller.store_up Caller.noon
    Caller.request_without_key []
  = (Fulfilled {| Response.status := 400;
                  Response.body :=
                    Response.Failure "Missing required fields" |}, []).
Proof.
  apply (post_deploy_rejects_incomplete Scenario.env0
           (Scenario.scripted Scenario.active) Caller.engine_up
           Caller.store_up Caller.noon Caller.request_without_key []).
  intros (_ & _ & _ & _ & K). discriminate K.
Defined.

(** X13 for a request sent with and without its optional members. *)
Lemma post_deploy_ignores_optional_members_witness :
  post_deploy Scenario.env0 (Scenario.scripted Scenario.active)
    Caller.engine_up Caller.store_up Caller.noon Caller.request []
  = post_deploy Scenario.env0 (Scenario.scripted Scenario.active)
      Caller.engine_up Caller.store_up Caller.noon
      Caller.request_with_options [].
Proof.
  apply (post_deploy_ignores_optional_members Scenario.env0
           (Scenario.scripted Scenario.active) Caller.engine_up
           Caller.store_up Caller.noon Caller.request
           Caller.request_with_options []);
    reflexivity.
Defined.


(** X20 when the engine cannot be reached: a 500 with the error of the
    request, and an empty datastore. *)
Lemma post_deploy_stops_at_failed_generation_witness :
  fst (post_deploy Scenario.env0 (Scenario.scripted Scenario.active)
         Caller.engine_down Caller.store_up Caller.noon Caller.request [])
  = Fulfilled {| Response.status := 500;
                 Response.body :=
                   Response.Failure "connect ECONNREFUSED" |}.
Proof.
  destruct (post_deploy_stops_at_failed_generation Scenario.env0
              (Scenario.scripted Scenario.active) Caller.engine_down
              Caller.store_up Caller.noon Caller.request []
              "connect ECONNREFUSED") as (t & E & _).
  - repeat split.
  - right. eexists. split; reflexivity.
  - rewrite E. reflexivity.
Defined.

(** X16 where the update is rejected and the delete denied: the caller is
    told so, and the row is set to error. *)
Lemma post_deploy_reports_deployment_error_witness :
  fst (post_deploy Scenario.env0 (Scenario.scripted Scenario.stuck)
         Caller.engine_up Caller.store_up Caller.noon Caller.request [])
  = Fulfilled
      {| Response.status := 500;
         Response.body :=
           Response.Failure
             "Failed to check service status: Failed to update or delete service: Service was not ACTIVE.. Delete attempt: delete denied" |}.
Proof.
  destruct (post_deploy_reports_deployment_error Scenario.env0
              (Scenario.scripted Scenario.stuck) Caller.engine_up
              Caller.store_up Caller.noon Caller.request [])
    as (resp & t & E & R).
  rewrite E. cbn [fst app] in *. f_equal.
  refine (proj1 (R [Core (ConsoleLog "🤖 Calling AI engine...");
            Core (Posted "http://localhost:8000/generate"
                    {| strategy_description := "buy low, sell high" |})]
           Caller.row
           (skipn 3 (snd (post_deploy Scenario.env0
                            (Scenario.scripted Scenario.stuck)
                            Caller.engine_up Caller.store_up Caller.noon
                            Caller.request [])))
           {| AgentRow.id := "agent-1" |}
           (new_Error
              "Failed to check service status: Failed to update or delete service: Service was not ACTIVE.. Delete attempt: delete denied")
           _ _ _)).
  - apply (f_equal snd) in E. cbn [snd] in E. rewrite <- E.
    vm_compute. reflexivity.
  - reflexivity.
  - reflexivity.
Defined.

(** X17 on a datastore that refuses updates: the deployment went through,
    the caller gets a 500. *)
Lemma post_deploy_reports_bookkeeping_error_witness :
  fst (post_deploy Scenario.env0 (Scenario.scripted Scenario.absent_empty)
         Caller.engine_up Caller.store_frozen Caller.noon Caller.request [])
  = Fulfilled
      {| Response.status := 500;
         Response.body :=
           Response.Failure "Update failed: permission denied" |}
  /\ operations
       (core (snd (post_deploy Scenario.env0
                     (Scenario.scripted Scenario.absent_empty)
                     Caller.engine_up Caller.store_frozen Caller.noon
                     Caller.request [])))
     = ["CreateLogGroup"; "PutRetentionPolicy"; "RegisterTaskDefinition";
        "DescribeServices"; "CreateService"].
Proof.
  split; [|reflexivity].
  destruct (post_deploy_reports_bookkeeping_error Scenario.env0
              (Scenario.scripted Scenario.absent_empty) Caller.engine_up
              Caller.store_frozen Caller.noon Caller.request [])
    as (resp & t & E & R).
  rewrite E. cbn [fst app] in *. f_equal.
  pose (run := snd (post_deploy Scenario.env0
                      (Scenario.scripted Scenario.absent_empty)
                      Caller.engine_up Caller.store_frozen Caller.noon
                      Caller.request [])).
  assert (Et : t = run) by (unfold run; rewrite E; reflexivity).
  refine (proj1 (R (firstn 13 run)
                   match nth 13 run ReadClock with
                   | Queried (Update patch _) => patch
                   | _ => {| AgentUpdate.status := "";
                             AgentUpdate.agent_deployed := None;
                             AgentUpdate.deployment := None;
                             AgentUpdate.updated_at := "" |}
                   end
                   "agent-1" (skipn 14 run)
                   "Update failed: permission denied" _ _ _)).
  - rewrite Et. vm_compute. reflexivity.
  - vm_compute. reflexivity.
  - left. eexists. split; [vm_compute; reflexivity | reflexivity].
Defined.

(** X9 on the draining service: the create that follows the forced delete,
    twelfth event of the run, asks for the task definition the platform
    answered to the register command. *)
Lemma deployToFargate_runs_what_was_registered_witness :
  exists pre0 i mid,
    firstn 11 (snd (deployToFargate Scenario.env0
                      (Scenario.scripted Scenario.draining) "a1"
                      Scenario.creds []))
    = (pre0 ++ Sent (RegisterTaskDefinitionCommand i) :: mid)%list
    /\ Scenario.scripted Scenario.draining pre0
         (RegisterTaskDefinitionCommand i)
       = Fulfilled Scenario.registered.
Proof.
  destruct (deployToFargate_runs_what_was_registered Scenario.env0
              (Scenario.scripted Scenario.draining) "a1" Scenario.creds [])
    as (t & E & R).
  cbn [app] in E. subst t.
  pose (run := snd (deployToFargate Scenario.env0
                      (Scenario.scripted Scenario.draining) "a1"
                      Scenario.creds [])).
  destruct (R (firstn 11 run)
              match nth 11 run (Slept 0) with
              | Sent c => c
              | _ => DeleteServiceCommand
                       {| DeleteService.cluster := "";
                          DeleteService.service := "";
                          DeleteService.force := false |}
              end
              (skipn 12 run) "arn:td/agent:7")
    as (pre0 & i & mid & out & P & A & _).
  - vm_compute. reflexivity.
  - reflexivity.
  - exists pre0, i, mid. split; [exact P | reflexivity].
Defined.

(** X18 on the end-to-end scenario: every command is named after
    ["agent-1"], the identity the datastore gave the row. *)
Lemma post_deploy_deploys_the_recorded_agent_witness :
  Forall (derived_names "agent-1")
    (commands
       (core (snd (post_deploy Scenario.env0
                     (Scenario.scripted Scenario.absent_empty)
                     Caller.engine_up Caller.store_up Caller.noon
                     Caller.request [])))).
Proof.
  destruct (post_deploy_deploys_the_recorded_agent Scenario.env0
              (Scenario.scripted Scenario.absent_empty) Caller.engine_up
              Caller.store_up Caller.noon Caller.request [])
    as (resp & t & E & R).
  pose (run := snd (post_deploy Scenario.env0
                      (Scenario.scripted Scenario.absent_empty)
                      Caller.engine_up Caller.store_up Caller.noon
                      Caller.request [])).
  assert (Et : t = run) by (unfold run; rewrite E; reflexivity).
  destruct (R (firstn 2 run) Caller.row (skipn 3 run)
              {| AgentRow.id := "agent-1" |})
    as (_ & _ & _ & _ & _ & _ & _ & N & _).
  - rewrite Et. vm_compute. reflexivity.
  - reflexivity.
  - exact N.
Defined.

(** X22 where the first create is rejected with "Cluster not found." after
    an empty describe result: the create is sent again, and its handle
    comes back. *)
Lemma reconcileService_create_failure_witness :
  fst (reconcileService Scenario.env0
         (Scenario.settling Scenario.nothing_found)
         "agent-svc-a1" "arn:td/agent:7" [])
  = Fulfilled "arn:svc/new".
Proof.
  destruct (reconcileService_create_failure Scenario.env0
              (Scenario.settling Scenario.nothing_found) "agent-svc-a1"
              "arn:td/agent:7" []) as (t & E & R).
  cbn [app] in E. subst t.
  edestruct (R []) as (_ & F).
  - cbn [app]. lazy. reflexivity.
  - reflexivity.
  - lazy in F. destruct F as (post' & _ & _ & F). exact F.
Defined.
